(** * PokedexImages: the PNG to WebP batch converter

    A shallow embedding of [convert_png_to_webp.py] and the proofs of its
    conversion policy: the skip rule, the encode-mode decision, the
    per-file error handling, the summary counters and the side-effect
    frame on the directory.

    The script talks to two collaborators that are not part of it: the
    file system (through [pathlib]) and the Pillow image library.  The
    file system is a finite map from names to entries, with a [Platform]
    that says on which missing paths [os.stat] raises instead of
    answering; Pillow is an interface [ImageCodec].  Every result is
    quantified over both, and small concrete instances are used to run
    the script on examples. *)

From stdpp Require Import gmap strings list fin_maps.
From Stdlib Require Import ZArith Ascii String.

Open Scope string_scope.
Open Scope Z_scope.

(** ** Strings and path names *)

Module PathName.

Definition chars (s : string) : list ascii := list_ascii_of_string s.
Definition of_chars (l : list ascii) : string := string_of_list_ascii l.

(** [str.endswith] *)
Definition endswith (s suf : string) : bool :=
  bool_decide (chars suf `suffix_of` chars s).

(** [str.rfind] of one character: the index of its last occurrence,
    or [-1]. *)
Fixpoint rfind_from (c : ascii) (l : list ascii) (i : Z) (last : Z) : Z :=
  match l with
  | [] => last
  | x :: r => rfind_from c r (i + 1) (if Ascii.eqb x c then i else last)
  end.

Definition rfind (s : string) (c : ascii) : Z := rfind_from c (chars s) 0 (-1).

Definition len (s : string) : Z := Z.of_nat (String.length s).

(** [PurePath.suffix] applied to the final component [name]:
<<
    i = name.rfind('.')
    if 0 < i < len(name) - 1: return name[i:]
    else: return ''
>> *)
Definition suffix (name : string) : string :=
  let i := rfind name "."%char in
  if (0 <? i) && (i <? len name - 1)
  then of_chars (drop (Z.to_nat i) (chars name))
  else "".

(** [PurePath.with_suffix], on the final component.  The two
    [ValueError] cases of the library (an ill-formed suffix, an empty
    name) cannot arise here: the script passes the literal ['.webp'] and
    names that come out of a directory listing.
<<
    old_suffix = self.suffix
    if not old_suffix: name = name + suffix
    else: name = name[:-len(old_suffix)] + suffix
>> *)
Definition with_suffix (name suf : string) : string :=
  let old_suffix := suffix name in
  if String.eqb old_suffix ""
  then name +:+ suf
  else of_chars (take (String.length name - String.length old_suffix)%nat (chars name)) +:+ suf.

End PathName.

(** ** The file system *)

Definition bytes : Type := list Byte.byte.

(** What a name inside the source directory denotes. *)
Inductive dirent : Type :=
| File (data : bytes)
| Subdir.

(** What a path given on the command line denotes. *)
Inductive fsobj : Type :=
| RegFile (data : bytes)
| DirObj (entries : gmap string dirent).

(** [Path.glob("*" + ext)]: the names of the directory, in listing order,
    that end with [ext].  The pattern matches hidden names and
    sub-directories too, as [pathlib] does. *)
Definition glob_star (entries : gmap string dirent) (ext : string) : list string :=
  filter (λ name, PathName.endswith name ext) (map_to_list entries).*1.

(** ** Python values, exceptions and the image library *)

Inductive pyval : Type :=
| PStr (s : string)
| PBool (b : bool)
| PInt (z : Z).

(** An instance of [Exception]; [str e] is what [str(e)] prints. *)
Inductive exn : Type :=
| Exception (str : string).

Definition str (e : exn) : string := match e with Exception s => s end.

(** The outcome of [img.save(path, **kwargs)]: the bytes written, or an
    exception, after which the library may or may not have left a file
    behind at [path]. *)
Inductive save_result : Type :=
| SaveOk (data : bytes)
| SaveErr (e : exn) (left_behind : option bytes).

(** The part of Pillow the script uses. *)
Record ImageCodec : Type := {
  image : Type;
  Image_open : bytes → exn + image;
  mode : image → string;
  getextrema : image → exn + list (Z * Z);
  convert : image → string → exn + image;
  save : image → gmap string pyval → save_result
}.

(** ** Observable effects *)

(** Calls made to the file system and to the image library. *)
Inductive event : Type :=
| DirExists (dir : string)
| DirIsDir (dir : string)
| Glob (dir pattern : string)
| FileExists (name : string)
| Open (name : string)
| GetExtrema (name : string)
| Convert (name new_mode : string)
| Save (name dest : string) (kwargs : gmap string pyval).

(** One constructor per [print] of the script. *)
Inductive msg : Type :=
| MsgDirMissing (dir : string)
| MsgNotDir (dir : string)
| MsgNoPng (dir : string)
| MsgFound (n : nat) (dir : string)
| MsgSkipping (png webp : string)
| MsgConverted (png webp : string)
| MsgErrorConverting (png reason : string)
| MsgRuleNL
| MsgTitle
| MsgRule
| MsgTotal (n : nat)
| MsgConvertedCount (n : nat)
| MsgSkippedCount (n : nat)
| MsgErrorCount (n : nat).

(** The state the loop runs in: the entries of the source directory, the
    calls made so far and the lines printed so far. *)
Record state : Type := {
  files : gmap string dirent;
  calls : list event;
  stdout : list msg
}.

(** The three local counters of [convert_png_to_webp]. *)
Record counters : Type := {
  converted_count : nat;
  skipped_count : nat;
  error_count : nat
}.

(** ** A state and exception monad *)

Definition M (A : Type) : Type := state → state * (exn + A).

Definition ret {A} (a : A) : M A := λ st, (st, inr a).

Definition bind {A B} (m : M A) (k : A → M B) : M B :=
  λ st, match m st with
        | (st', inr a) => k a st'
        | (st', inl e) => (st', inl e)
        end.

Definition raise {A} (e : exn) : M A := λ st, (st, inl e).

(** [try: body except Exception as e: handler e] *)
Definition try_except {A} (body : M A) (handler : exn → M A) : M A :=
  λ st, match body st with
        | (st', inr a) => (st', inr a)
        | (st', inl e) => handler e st'
        end.

Declare Scope py_scope.
Delimit Scope py_scope with py.
Notation "x <- m ;; k" := (bind m (λ x, k))
  (at level 100, m at next level, right associativity) : py_scope.
Notation "m ;;; k" := (bind m (λ _, k))
  (at level 100, right associativity) : py_scope.
Open Scope py_scope.

Definition log (ev : event) : M unit :=
  λ st, ({| files := files st; calls := calls st ++ [ev]; stdout := stdout st |}, inr tt).

Definition print (m : msg) : M unit :=
  λ st, ({| files := files st; calls := calls st; stdout := stdout st ++ [m] |}, inr tt).

Definition write_file (name : string) (data : bytes) : M unit :=
  λ st, ({| files := <[name := File data]> (files st); calls := calls st; stdout := stdout st |},
         inr tt).

Definition lift {A} (r : exn + A) : M A :=
  match r with inl e => raise e | inr a => ret a end.

(** ** The operating system *)

(** [Path.exists()] asks [os.stat] and turns four of its errors (ENOENT,
    ENOTDIR, EBADF, ELOOP) into [False]; every other [OSError] is raised
    again, for instance ENAMETOOLONG for a name of more than 255 bytes.
    A path that is in the file system can be examined; for a path that is
    not, the platform says which error of the second kind [os.stat]
    raises, if any: [stat_dir_error] for the path given on the command
    line, [stat_error] for a name inside the source directory. *)
Record Platform : Type := {
  stat_dir_error : string → option exn;
  stat_error : string → option exn
}.

(** ** The script *)

Section Converter.

Context (PIL : ImageCodec) (OS : Platform).

(** [Path.exists()] on a name of the source directory: [True] for an
    entry, otherwise [False] or the error of [os.stat]. *)
Definition exists_ (name : string) : M bool :=
  log (FileExists name);;;
  λ st, match files st !! name with
        | Some _ => (st, inr true)
        | None =>
            match stat_error OS name with
            | Some e => (st, inl e)
            | None => (st, inr false)
            end
        end.

(** [Image.open(png_file)]: the builtin [open] fails on a missing name
    and on a directory, otherwise the library reads the bytes. *)
Definition open_ (name : string) : M (image PIL) :=
  log (Open name);;;
  λ st, match files st !! name with
        | Some (File data) => lift (Image_open PIL data) st
        | Some Subdir => raise (Exception "Is a directory") st
        | None => raise (Exception "No such file or directory") st
        end.

Definition getextrema_ (name : string) (img : image PIL) : M (list (Z * Z)) :=
  log (GetExtrema name);;; lift (getextrema PIL img).

Definition convert_ (name : string) (img : image PIL) (new_mode : string) : M (image PIL) :=
  log (Convert name new_mode);;; lift (convert PIL img new_mode).

(** [img.save(webp_file, **save_kwargs)] *)
Definition save_ (name dest : string) (img : image PIL) (kwargs : gmap string pyval) : M unit :=
  log (Save name dest kwargs);;;
  match save PIL img kwargs with
  | SaveOk data => write_file dest data
  | SaveErr e None => raise e
  | SaveErr e (Some data) => write_file dest data;;; raise e
  end.

(** [t[i]] on a tuple. *)
Definition index {A} (t : list A) (i : nat) : M A :=
  match t !! i with
  | Some a => ret a
  | None => raise (Exception "tuple index out of range")
  end.

(** The body of the [with Image.open(png_file) as img:] block: choose
    the keyword arguments, then save. *)
Definition convert_image (quality : Z) (lossless : bool) (png_file webp_file : string)
    : M unit :=
  img <- open_ png_file;;
  if String.eqb (mode PIL img) "RGBA" then
    extrema <- getextrema_ png_file img;;
    alpha <- index extrema 3;;
    if fst alpha <? 255 then
      let save_kwargs : gmap string pyval :=
        {[ "format" := PStr "WEBP"; "lossless" := PBool lossless ]} in
      let save_kwargs :=
        if negb lossless then <["quality" := PInt quality]> save_kwargs else save_kwargs in
      save_ png_file webp_file img save_kwargs
    else
      img <- convert_ png_file img "RGB";;
      let save_kwargs : gmap string pyval :=
        {[ "format" := PStr "WEBP"; "quality" := PInt quality ]} in
      save_ png_file webp_file img save_kwargs
  else
    let save_kwargs : gmap string pyval :=
      {[ "format" := PStr "WEBP"; "quality" := PInt quality ]} in
    save_ png_file webp_file img save_kwargs.

Definition bump_converted (c : counters) : counters :=
  {| converted_count := S (converted_count c);
     skipped_count := skipped_count c;
     error_count := error_count c |}.

Definition bump_skipped (c : counters) : counters :=
  {| converted_count := converted_count c;
     skipped_count := S (skipped_count c);
     error_count := error_count c |}.

Definition bump_error (c : counters) : counters :=
  {| converted_count := converted_count c;
     skipped_count := skipped_count c;
     error_count := S (error_count c) |}.

(** One iteration of [for png_file in png_files]. *)
Definition process_file (quality : Z) (lossless : bool) (png_file : string) (c : counters)
    : M counters :=
  let webp_file := PathName.with_suffix png_file ".webp" in
  already <- exists_ webp_file;;
  if already : bool then
    print (MsgSkipping png_file webp_file);;;
    ret (bump_skipped c)
  else
    try_except
      (convert_image quality lossless png_file webp_file;;;
       print (MsgConverted png_file webp_file);;;
       ret (bump_converted c))
      (λ e,
       print (MsgErrorConverting png_file (str e));;;
       ret (bump_error c)).

Fixpoint convert_loop (quality : Z) (lossless : bool) (png_files : list string) (c : counters)
    : M counters :=
  match png_files with
  | [] => ret c
  | png_file :: rest =>
      c' <- process_file quality lossless png_file c;;
      convert_loop quality lossless rest c'
  end.

Definition print_summary (total : nat) (c : counters) : M unit :=
  print MsgRuleNL;;;
  print MsgTitle;;;
  print MsgRule;;;
  print (MsgTotal total);;;
  print (MsgConvertedCount (converted_count c));;;
  print (MsgSkippedCount (skipped_count c));;;
  print (MsgErrorCount (error_count c));;;
  print MsgRule.

(** The result of a call: the file system afterwards, the calls made,
    the lines printed, and the exception that escaped, if any. *)
Record run : Type := {
  run_fs : gmap string fsobj;
  run_calls : list event;
  run_stdout : list msg;
  run_uncaught : option exn
}.

Definition zero : counters :=
  {| converted_count := 0; skipped_count := 0; error_count := 0 |}.

Definition convert_png_to_webp (source_dir : string) (quality : Z) (lossless : bool)
    (fs : gmap string fsobj) : run :=
  match fs !! source_dir with
  | None =>
      match stat_dir_error OS source_dir with
      | Some e =>
          {| run_fs := fs;
             run_calls := [DirExists source_dir];
             run_stdout := [];
             run_uncaught := Some e |}
      | None =>
          {| run_fs := fs;
             run_calls := [DirExists source_dir];
             run_stdout := [MsgDirMissing source_dir];
             run_uncaught := None |}
      end
  | Some (RegFile _) =>
      {| run_fs := fs;
         run_calls := [DirExists source_dir; DirIsDir source_dir];
         run_stdout := [MsgNotDir source_dir];
         run_uncaught := None |}
  | Some (DirObj entries) =>
      let png_files := glob_star entries ".png" in
      let probes := [DirExists source_dir; DirIsDir source_dir; Glob source_dir "*.png"] in
      match png_files with
      | [] =>
          {| run_fs := fs;
             run_calls := probes;
             run_stdout := [MsgNoPng source_dir];
             run_uncaught := None |}
      | _ =>
          let body : M unit :=
            print (MsgFound (List.length png_files) source_dir);;;
            c <- convert_loop quality lossless png_files zero;;
            print_summary (List.length png_files) c in
          let '(st, r) := body {| files := entries; calls := probes; stdout := [] |} in
          {| run_fs := <[source_dir := DirObj (files st)]> fs;
             run_calls := calls st;
             run_stdout := stdout st;
             run_uncaught := match r with inl e => Some e | inr _ => None end |}
      end
  end.

End Converter.

(** ** Reading the printed summary *)

(** The four numbers of the summary block. *)
Record summary : Type := {
  total_found : nat;
  converted : nat;
  skipped : nat;
  errors : nat
}.

(** A summary whose counts are all zero. *)
Definition no_counts : summary :=
  {| total_found := 0; converted := 0; skipped := 0; errors := 0 |}.

(** The summary a run printed, if it printed one: the four count lines,
    in the order the script prints them. *)
Fixpoint printed_summary (out : list msg) : option summary :=
  match out with
  | [] => None
  | MsgTotal t :: rest =>
      match rest with
      | MsgConvertedCount c :: MsgSkippedCount s :: MsgErrorCount e :: _ =>
          Some {| total_found := t; converted := c; skipped := s; errors := e |}
      | _ => printed_summary rest
      end
  | _ :: rest => printed_summary rest
  end.

(** The line the script prints for one file, whatever the outcome. *)
Definition reports (png : string) (m : msg) : bool :=
  match m with
  | MsgSkipping p _ | MsgConverted p _ | MsgErrorConverting p _ => String.eqb p png
  | _ => false
  end.

(** Pillow's modes that carry an alpha band: this is what the
    specification calls a colour model that includes an alpha channel.
    The script itself only ever compares the mode with ['RGBA']. *)
Definition has_alpha_channel (m : string) : bool :=
  bool_decide (m ∈ ["RGBA"; "LA"; "PA"; "RGBa"; "La"]).

Definition is_save (ev : event) : bool :=
  match ev with Save _ _ _ => true | _ => false end.

Definition is_save_of (png : string) (ev : event) : bool :=
  match ev with Save p _ _ => String.eqb p png | _ => false end.

Definition is_codec_call_on (png : string) (ev : event) : bool :=
  match ev with
  | Open p | GetExtrema p | Convert p _ | Save p _ _ => String.eqb p png
  | _ => false
  end.

(** ** Outcomes of one iteration *)

(** What one iteration of the loop did with its file: the three outcomes
    of the specification.  A failed save carries the bytes the library
    left behind, if it left any. *)
Inductive outcome : Type :=
| Skipped
| Converted (data : bytes)
| Failed (e : exn) (left_behind : option bytes).

Definition tally (o : outcome) (c : counters) : counters :=
  match o with
  | Skipped => bump_skipped c
  | Converted _ => bump_converted c
  | Failed _ _ => bump_error c
  end.

Definition written (o : outcome) : option bytes :=
  match o with
  | Skipped => None
  | Converted data => Some data
  | Failed _ left_behind => left_behind
  end.

Definition report (png webp : string) (o : outcome) : msg :=
  match o with
  | Skipped => MsgSkipping png webp
  | Converted _ => MsgConverted png webp
  | Failed e _ => MsgErrorConverting png (str e)
  end.

Definition put (dest : string) (w : option bytes) (fs : gmap string dirent)
    : gmap string dirent :=
  match w with
  | Some data => <[dest := File data]> fs
  | None => fs
  end.

(** The state after an iteration with outcome [o] that made the calls
    [evs] after its existence check. *)
Definition after (st : state) (png : string) (o : outcome) (evs : list event) : state :=
  let webp := PathName.with_suffix png ".webp" in
  {| files := put webp (written o) (files st);
     calls := calls st ++ FileExists webp :: evs;
     stdout := stdout st ++ [report png webp o] |}.

(** The calls a conversion attempt on [png] may make: it opens the file
    first, everything is a call of the image library on that file, and at
    most one of them is a save, to [webp]. *)
Definition attempt_calls (png webp : string) (evs : list event) : Prop :=
  (∃ evs', evs = Open png :: evs') ∧
  Forall (λ ev, is_codec_call_on png ev) evs ∧
  (∀ ev, ev ∈ evs → is_save ev → ∃ kw, ev = Save png webp kw) ∧
  (List.length (filter (λ ev, is_save ev) evs) ≤ 1)%nat.

Definition summary_lines (s : summary) : list msg :=
  [MsgRuleNL; MsgTitle; MsgRule; MsgTotal (total_found s);
   MsgConvertedCount (converted s); MsgSkippedCount (skipped s);
   MsgErrorCount (errors s); MsgRule].

Definition summary_of (total : nat) (c : counters) : summary :=
  {| total_found := total; converted := converted_count c;
     skipped := skipped_count c; errors := error_count c |}.

(** The number of files the counters account for. *)
Definition count_sum (c : counters) : nat :=
  (converted_count c + skipped_count c + error_count c)%nat.

Definition is_count_line (m : msg) : bool :=
  match m with MsgTotal _ => true | _ => false end.

Definition probes (dir : string) : list event :=
  [DirExists dir; DirIsDir dir; Glob dir "*.png"].

(** The state in which the loop starts. *)
Definition loop_start (dir : string) (entries : gmap string dirent) : state :=
  {| files := entries; calls := probes dir;
     stdout := [MsgFound (List.length (glob_star entries ".png")) dir] |}.

(** The state after the calls [evs], with the directory and the output
    as they were. *)
Definition called (st : state) (evs : list event) : state :=
  {| files := files st; calls := calls st ++ evs; stdout := stdout st |}.

(** The keyword arguments of the two branches that always pass
    [quality]. *)
Definition quality_only (q : Z) : gmap string pyval :=
  {[ "format" := PStr "WEBP"; "quality" := PInt q ]}.

(** The state after printing [lines]. *)
Definition printed (st : state) (lines : list msg) : state :=
  {| files := files st; calls := calls st; stdout := stdout st ++ lines |}.

(** What a call returns when the loop ends, and when an exception leaves
    it. *)
Definition run_completed (dir : string) (fs : gmap string fsobj) (total : nat)
    (c : counters) (st : state) : run :=
  {| run_fs := <[dir := DirObj (files st)]> fs;
     run_calls := calls st;
     run_stdout := stdout st ++ summary_lines (summary_of total c);
     run_uncaught := None |}.

Definition run_aborted (dir : string) (fs : gmap string fsobj) (st : state) (e : exn) : run :=
  {| run_fs := <[dir := DirObj (files st)]> fs;
     run_calls := calls st;
     run_stdout := stdout st;
     run_uncaught := Some e |}.

(** The state after a conversion attempt that made the calls [evs] and
    wrote [w] at [dest]. *)
Definition effect (st : state) (dest : string) (w : option bytes) (evs : list event) : state :=
  {| files := put dest w (files st); calls := calls st ++ evs; stdout := stdout st |}.

Definition webp_of (png : string) : string := PathName.with_suffix png ".webp".

(** What is known of one iteration on [png] from [st] that no exception
    leaves: what the code returns, when it skips, which calls it makes,
    and that an attempt depends on the directory only through the file
    itself. *)
Definition iteration (PIL : ImageCodec) (OS : Platform) (q : Z) (l : bool) (png : string)
    (st : state) (o : outcome) (evs : list event) : Prop :=
  (∀ c, process_file PIL OS q l png c st = (after st png o evs, inr (tally o c))) ∧
  (o = Skipped ↔ is_Some (files st !! webp_of png)) ∧
  (o = Skipped → evs = []) ∧
  (o ≠ Skipped → attempt_calls png (webp_of png) evs) ∧
  (is_Some (written o) → ∃ kw, Save png (webp_of png) kw ∈ evs) ∧
  (∀ c2 st2, files st2 !! png = files st !! png → files st2 !! webp_of png = None →
     o ≠ Skipped →
     process_file PIL OS q l png c2 st2 = (after st2 png o evs, inr (tally o c2))).

(** A loop that no exception leaves, as the sequence of its
    iterations. *)
Inductive replay (PIL : ImageCodec) (OS : Platform) (q : Z) (l : bool)
    : list string → counters → state → counters → state → Prop :=
| replay_nil c st : replay PIL OS q l [] c st c st
| replay_cons png rest o evs c st c' st' :
    iteration PIL OS q l png st o evs →
    replay PIL OS q l rest (tally o c) (after st png o evs) c' st' →
    replay PIL OS q l (png :: rest) c st c' st'.

(** An iteration on [png] over the directory [F] that leaves it as it
    is: it skips the file when its counterpart exists, and otherwise
    fails without writing. *)
Definition quiet (PIL : ImageCodec) (OS : Platform) (q : Z) (l : bool) (png : string)
    (F : gmap string dirent) : Prop :=
  ∀ c st, files st = F →
    ∃ o evs,
      process_file PIL OS q l png c st = (after st png o evs, inr (tally o c)) ∧
      written o = None ∧
      (∀ d, o ≠ Converted d) ∧
      (is_Some (F !! webp_of png) → o = Skipped).

(** ** Counting the report lines *)

Definition is_converted_line (m : msg) : bool :=
  match m with MsgConverted _ _ => true | _ => false end.

Definition is_skipping_line (m : msg) : bool :=
  match m with MsgSkipping _ _ => true | _ => false end.

Definition is_error_line (m : msg) : bool :=
  match m with MsgErrorConverting _ _ => true | _ => false end.

(** How many lines of [out] satisfy [f]. *)
Definition count_lines (f : msg → bool) (out : list msg) : nat :=
  List.length (filter (λ m, f m) out).

(** Whether the script takes, for what a name denotes, the branch that
    keeps the alpha band: a file that opens as an ['RGBA'] image whose
    fourth band has a minimum below 255. *)
Definition keeps_alpha (PIL : ImageCodec) (ent : option dirent) : bool :=
  match ent with
  | Some (File data) =>
      match Image_open PIL data with
      | inr img =>
          String.eqb (mode PIL img) "RGBA" &&
          match getextrema PIL img with
          | inr extrema =>
              match extrema !! 3%nat with
              | Some alpha => alpha.1 <? 255
              | None => false
              end
          | inl _ => false
          end
      | inl _ => false
      end
  | _ => false
  end.

(** ** The command line *)

(** The namespace [parser.parse_args()] returns. *)
Record args : Type := {
  directory : string;
  quality : Z;
  lossless : bool
}.

(** The values of the options that are not given. *)
Definition default_args : args :=
  {| directory := "./official-artwork"; quality := 85; lossless := false |}.

(** The lines [main] prints itself, and the lines of the converter. *)
Inductive line : Type :=
| LineQualityError
| LineTitle
| LineRule
| LineDirectory (dir : string)
| LineQuality (shown : string + Z)
| LineConverter (m : msg).

Record main_run : Type := {
  main_fs : gmap string fsobj;
  main_calls : list event;
  main_stdout : list line;
  main_uncaught : option exn
}.

(** [main], from the parsed arguments on. *)
Definition main (PIL : ImageCodec) (OS : Platform) (a : args) (fs : gmap string fsobj) : main_run :=
  if negb ((0 <=? quality a) && (quality a <=? 100)) then
    {| main_fs := fs; main_calls := []; main_stdout := [LineQualityError];
       main_uncaught := None |}
  else
    let r := convert_png_to_webp PIL OS (directory a) (quality a) (lossless a) fs in
    {| main_fs := run_fs r;
       main_calls := run_calls r;
       main_stdout :=
         [LineTitle; LineRule; LineDirectory (directory a);
          LineQuality (if lossless a then inl "Lossless" else inr (quality a));
          LineRule] ++ (LineConverter <$> run_stdout r);
       main_uncaught := run_uncaught r |}.

(** ** A small codec to run the script on examples

    The first byte of a file picks what the library makes of it: an RGB
    image, an RGBA or LA image whose smallest alpha sample is the second
    byte, an image that cannot be encoded, or a file that is not an image
    at all. *)

Module Toy.

Record img : Type := {
  t_mode : string;
  t_bands : list (Z * Z);
  t_payload : bytes
}.

Definition byteZ (b : Byte.byte) : Z := Z.of_N (Byte.to_N b).

Definition t_open (data : bytes) : exn + img :=
  match data with
  | Byte.x01 :: _ | Byte.x05 :: _ | Byte.x06 :: _ =>
      inr {| t_mode := "RGB"; t_bands := [(0, 255); (0, 255); (0, 255)]; t_payload := data |}
  | Byte.x02 :: a :: _ =>
      inr {| t_mode := "RGBA";
             t_bands := [(0, 255); (0, 255); (0, 255); (byteZ a, 255)];
             t_payload := data |}
  | Byte.x03 :: a :: _ =>
      inr {| t_mode := "LA"; t_bands := [(0, 255); (byteZ a, 255)]; t_payload := data |}
  | _ => inl (Exception "cannot identify image file")
  end.

Definition t_convert (i : img) (m : string) : exn + img :=
  if String.eqb m "RGB"
  then inr {| t_mode := "RGB"; t_bands := take 3 (t_bands i); t_payload := t_payload i |}
  else inl (Exception "conversion not supported").

Definition t_save (i : img) (kwargs : gmap string pyval) : save_result :=
  match t_payload i with
  | Byte.x05 :: _ => SaveErr (Exception "encoder error") None
  | Byte.x06 :: _ => SaveErr (Exception "encoder error") (Some [])
  | _ =>
      let flag := match kwargs !! "lossless" with
                  | Some (PBool true) => Byte.x4c
                  | _ => Byte.x51
                  end in
      SaveOk (Byte.x57 :: flag :: t_payload i)
  end.

Definition codec : ImageCodec := {|
  image := img;
  Image_open := t_open;
  mode := t_mode;
  getextrema := λ i, inr (t_bands i);
  convert := t_convert;
  save := t_save
|}.

Definition opaque_png : dirent := File [Byte.x02; Byte.xff].
Definition translucent_png : dirent := File [Byte.x02; Byte.x80].
Definition gray_alpha_png : dirent := File [Byte.x03; Byte.x00].
Definition rgb_png : dirent := File [Byte.x01].
Definition broken_png : dirent := File [Byte.x00].
Definition unencodable_png : dirent := File [Byte.x05].
Definition old_webp : dirent := File [Byte.x57].

(** The scenario of the specification: an opaque picture, a translucent
    one, and one that was converted before. *)
Definition artwork : gmap string dirent :=
  {[ "a.png" := opaque_png; "b.png" := translucent_png;
     "c.png" := rgb_png; "c.webp" := old_webp ]}.

(** A directory without any PNG file. *)
Definition no_pngs : gmap string dirent :=
  {[ "c.webp" := old_webp; "notes.txt" := File [] ]}.

(** A directory with one failed download next to a good picture. *)
Definition with_broken : gmap string dirent :=
  {[ "a.png" := opaque_png; "bad.png" := broken_png ]}.

(** A translucent grey picture: two bands, the second one alpha. *)
Definition gray : gmap string dirent := {[ "g.png" := gray_alpha_png ]}.

(** Two good pictures around a file that is not an image. *)
Definition mixed : gmap string dirent :=
  {[ "a.png" := opaque_png; "bad.png" := broken_png; "b.png" := translucent_png ]}.

(** A directory without any translucent picture. *)
Definition opaque_only : gmap string dirent :=
  {[ "a.png" := opaque_png; "c.png" := rgb_png ]}.

(** A directory with translucent pictures only. *)
Definition translucent_only : gmap string dirent :=
  {[ "b.png" := translucent_png ]}.

(** The loop state over a directory, before any call. *)
Definition fresh (entries : gmap string dirent) : state :=
  {| files := entries; calls := []; stdout := [] |}.

Definition disk (entries : gmap string dirent) : gmap string fsobj :=
  {[ "./official-artwork" := DirObj entries; "README.md" := RegFile [] ]}.

(** A platform on which a name of more than 255 bytes is too long. *)
Definition too_long (name : string) : option exn :=
  if (255 <? String.length name)%nat
  then Some (Exception "[Errno 36] File name too long")
  else None.

Definition os : Platform := {| stat_dir_error := too_long; stat_error := too_long |}.

(** A PNG name of 255 bytes: its counterpart has 256. *)
Definition long_png : string := PathName.of_chars (replicate 251 "x"%char) +:+ ".png".

(** A good picture next to one whose counterpart cannot be named. *)
Definition with_long_name : gmap string dirent :=
  {[ "a.png" := opaque_png; long_png := rgb_png ]}.

Definition go (fs : gmap string fsobj) : run :=
  convert_png_to_webp codec os "./official-artwork" 85 false fs.

End Toy.

(** ** Examples *)

Example with_suffix_plain : PathName.with_suffix "25.png" ".webp" = "25.webp".
Proof. reflexivity. Qed.

Example with_suffix_dots : PathName.with_suffix "25-gmax.v2.png" ".webp" = "25-gmax.v2.webp".
Proof. reflexivity. Qed.

Example with_suffix_hidden : PathName.with_suffix ".png" ".webp" = ".png.webp".
Proof. reflexivity. Qed.

Example scenario_summary :
  printed_summary (run_stdout (Toy.go (Toy.disk Toy.artwork)))
  = Some {| total_found := 3; converted := 2; skipped := 1; errors := 0 |}.
Proof. vm_compute. reflexivity. Qed.

(** A PNG file whose name has 255 bytes: the existence test on its
    counterpart, which is outside the [try], raises, and the exception
    leaves the call after the files listed before it. *)
Example long_name_aborts :
  let r := Toy.go (Toy.disk Toy.with_long_name) in
  String.length Toy.long_png = 255%nat ∧
  run_uncaught r = Some (Exception "[Errno 36] File name too long") ∧
  printed_summary (run_stdout r) = None ∧
  run_stdout r = [MsgFound 2 "./official-artwork"; MsgConverted "a.png" "a.webp"].
Proof. vm_compute. split_and!; reflexivity. Qed.

(** A missing source directory whose name is too long: the first test
    raises and nothing is printed. *)
Example long_directory_name_aborts :
  let r := convert_png_to_webp Toy.codec Toy.os (Toy.long_png +:+ "x") 85 false
             (Toy.disk Toy.artwork) in
  run_uncaught r = Some (Exception "[Errno 36] File name too long") ∧
  run_stdout r = [].
Proof. vm_compute. split; reflexivity. Qed.

(** ** Path names: a converted name is never a PNG name *)

Lemma chars_app (s1 s2 : string) :
  PathName.chars (s1 +:+ s2) = (PathName.chars s1 ++ PathName.chars s2)%list.
Proof.
  unfold PathName.chars. induction s1 as [|a s1 IH]; simpl; [done|].
  by rewrite IH.
Qed.

Lemma with_suffix_app (name suf : string) :
  ∃ stem, PathName.with_suffix name suf = stem +:+ suf.
Proof.
  unfold PathName.with_suffix.
  destruct (String.eqb (PathName.suffix name) ""); eauto.
Qed.

Lemma webp_not_png (name : string) :
  PathName.endswith (PathName.with_suffix name ".webp") ".png" = false.
Proof.
  destruct (with_suffix_app name ".webp") as [stem ->].
  unfold PathName.endswith. apply bool_decide_eq_false.
  rewrite chars_app. intros [k Hk].
  apply (f_equal reverse) in Hk. rewrite !reverse_app in Hk.
  vm_compute (reverse (PathName.chars ".webp")) in Hk.
  vm_compute (reverse (PathName.chars ".png")) in Hk.
  simpl in Hk. discriminate Hk.
Qed.

(** ** One conversion attempt *)

Lemma attempt_calls_intro png webp evs :
  Forall (λ ev, is_codec_call_on png ev) (Open png :: evs) →
  (∀ ev, ev ∈ evs → is_save ev → ∃ kw, ev = Save png webp kw) →
  (List.length (filter (λ ev, is_save ev) evs) ≤ 1)%nat →
  attempt_calls png webp (Open png :: evs).
Proof.
  intros HF HS HL. split; [eauto|]. split; [done|]. split.
  - intros ev [->|Hin]%elem_of_cons Hs; [done|eauto].
  - rewrite filter_cons_False; [done|]. simpl. tauto.
Qed.

Ltac run_monad :=
  unfold convert_image, open_, getextrema_, convert_, save_, index, lift, bind, log,
    raise, ret, write_file, effect; simpl.

Ltac split_codec :=
  repeat match goal with
  | |- context [match Image_open ?P ?d with _ => _ end] => destruct (Image_open P d); simpl
  | |- context [match getextrema ?P ?i with _ => _ end] => destruct (getextrema P i); simpl
  | |- context [match convert ?P ?i ?m with _ => _ end] => destruct (convert P i m); simpl
  | |- context [match save ?P ?i ?k with _ => _ end] =>
      destruct (save P i k) as [?|? [?|]]; simpl
  | |- context [match ?t !! 3%nat with _ => _ end] => destruct (t !! 3%nat); simpl
  | |- context [if String.eqb ?a ?b then _ else _] => destruct (String.eqb a b); simpl
  | |- context [if Z.ltb ?a ?b then _ else _] => destruct (Z.ltb a b); simpl
  end.

Ltac attempt_leaf :=
  rewrite <- ?app_assoc; simpl;
  first [ eexists _, None, _; split; [reflexivity|]; split; [reflexivity|]
        | eexists _, (Some _), _; split; [reflexivity|]; split; [reflexivity|] ];
  split; [intros; first [by eauto | discriminate]|];
  split;
  [ apply attempt_calls_intro;
    [ repeat constructor; simpl; by rewrite String.eqb_refl
    | intros ev Hin Hs; repeat (apply elem_of_cons in Hin as [->|Hin]); simpl in Hs;
      first [done | by eauto | by apply elem_of_nil in Hin]
    | simpl; lia ]
  | intros Hw;
    first [ by destruct Hw
          | eexists; repeat first [apply list_elem_of_here | apply list_elem_of_further] ] ].

Section Attempt.

Context (PIL : ImageCodec) (OS : Platform).

(** An attempt reads the directory only at [png]: from two states that
    agree there it makes the same calls, writes the same bytes and ends
    the same way.  It writes only at [webp], and always when it
    succeeds. *)
Lemma convert_image_local q l png webp st1 st2 :
  files st1 !! png = files st2 !! png →
  ∃ evs w r,
    convert_image PIL q l png webp st1 = (effect st1 webp w evs, r) ∧
    convert_image PIL q l png webp st2 = (effect st2 webp w evs, r) ∧
    (r = inr tt → is_Some w) ∧
    attempt_calls png webp evs ∧
    (is_Some w → ∃ kw, Save png webp kw ∈ evs).
Proof.
  intros Heq. run_monad. rewrite <- Heq.
  destruct (files st1 !! png) as [[data|]|]; simpl; split_codec; attempt_leaf.
Qed.

(** One iteration on a file whose counterpart exists. *)
Lemma process_file_skips q l png c st :
  is_Some (files st !! webp_of png) →
  process_file PIL OS q l png c st
  = (after st png Skipped [], inr (bump_skipped c)).
Proof.
  intros [x Hx]. unfold process_file, exists_. fold (webp_of png).
  unfold bind, log, print, ret, after; simpl. by rewrite Hx.
Qed.

(** One iteration on a file whose counterpart cannot be examined: the
    error of [os.stat] leaves the iteration. *)
Lemma process_file_raises q l png c st e :
  files st !! webp_of png = None →
  stat_error OS (webp_of png) = Some e →
  process_file PIL OS q l png c st = (called st [FileExists (webp_of png)], inl e).
Proof.
  intros Hw He. unfold process_file, exists_. fold (webp_of png).
  unfold bind, log, called; simpl. by rewrite Hw, He.
Qed.

(** An iteration either ends with one of the three outcomes, or is left
    by the error of the existence test. *)
Lemma process_file_iteration q l png st :
  (∃ o evs, iteration PIL OS q l png st o evs) ∨
  (∃ e, files st !! webp_of png = None ∧ stat_error OS (webp_of png) = Some e).
Proof.
  destruct (files st !! webp_of png) as [x|] eqn:Hw.
  { left. exists Skipped, []. unfold iteration. split_and!; try done.
    all: try (intros c; apply process_file_skips; rewrite Hw; by eauto).
    all: try (by intros [? ?]).
    all: try (by eauto). }
  destruct (stat_error OS (webp_of png)) as [e|] eqn:He; [right; eauto|left].
  set (st' := {| files := files st; calls := (calls st ++ [FileExists (webp_of png)])%list;
                 stdout := stdout st |}).
  destruct (convert_image_local q l png (webp_of png) st' st' eq_refl)
    as (evs & w & r & H1 & _ & Hr & Hcalls & Hsave).
  assert (∃ o, o ≠ Skipped ∧ written o = w ∧
            r = match o with Failed e _ => inl e | _ => inr tt end) as (o & Ho & Hwo & Hro).
  { destruct r as [e|[]].
    - exists (Failed e w). done.
    - destruct (Hr eq_refl) as [d ->]. exists (Converted d). done. }
  assert (∀ c2 st2, files st2 !! png = files st !! png → files st2 !! webp_of png = None →
            process_file PIL OS q l png c2 st2 = (after st2 png o evs, inr (tally o c2)))
    as Hrun.
  { intros c2 st2 Hpng Hw2. unfold process_file, exists_. fold (webp_of png).
    unfold bind at 1 2. unfold log at 1. simpl.
    rewrite Hw2, He.
    set (st2' := {| files := files st2; calls := (calls st2 ++ [FileExists (webp_of png)])%list;
                    stdout := stdout st2 |}).
    destruct (convert_image_local q l png (webp_of png) st' st2') as
      (evs' & w' & r' & H1' & H2' & _); [done|].
    rewrite H1 in H1'. injection H1' as Hf Hc <-.
    apply app_inv_head in Hc as <-.
    assert (put (webp_of png) w' (files st2) = put (webp_of png) w (files st2)) as Hput.
    { destruct w as [d|], w' as [d'|]; simpl in *; try done.
      - apply (f_equal (λ m, m !! webp_of png)) in Hf.
        rewrite !lookup_insert_eq in Hf. by injection Hf as ->.
      - apply (f_equal (λ m, m !! webp_of png)) in Hf.
        rewrite lookup_insert_eq, Hw in Hf. done.
      - apply (f_equal (λ m, m !! webp_of png)) in Hf.
        rewrite lookup_insert_eq, Hw in Hf. done. }
    unfold try_except, bind. rewrite H2'. unfold effect. subst st2'. simpl. rewrite Hput.
    subst r w. unfold after, print, ret. fold (webp_of png). simpl.
    destruct o as [|d|e wl]; [done| |]; simpl; by rewrite <- app_assoc. }
  exists o, evs. unfold iteration. split_and!; try done.
  - intros c. by apply Hrun.
  - split; [done|]. rewrite Hw. by intros [? ?].
  - by rewrite Hwo.
  - intros c2 st2 ? ? _. by apply Hrun.
Qed.

(** The loop is a sequence of iterations: either of all of them, or of
    the ones before the file at which the existence test raises. *)
Lemma convert_loop_cases q l pngs c st :
  (∃ c' st',
     convert_loop PIL OS q l pngs c st = (st', inr c') ∧
     replay PIL OS q l pngs c st c' st') ∨
  (∃ before png rest c1 st1 e,
     pngs = (before ++ png :: rest)%list ∧
     replay PIL OS q l before c st c1 st1 ∧
     files st1 !! webp_of png = None ∧
     stat_error OS (webp_of png) = Some e ∧
     convert_loop PIL OS q l pngs c st = (called st1 [FileExists (webp_of png)], inl e)).
Proof.
  revert c st. induction pngs as [|png rest IH]; intros c st.
  - left. exists c, st. split; [done|constructor].
  - destruct (process_file_iteration q l png st) as [(o & evs & Hit)|(e & Hw & He)].
    + pose proof Hit as (Hrun & _).
      destruct (IH (tally o c) (after st png o evs))
        as [(c' & st' & Hloop & Hrep)
           |(before & x & rest' & c1 & st1 & e & -> & Hrep & Hw & He & Hloop)].
      * left. exists c', st'. split; [|by econstructor].
        simpl. unfold bind. by rewrite Hrun.
      * right. exists (png :: before), x, rest', c1, st1, e.
        split_and!; [done|by econstructor|done|done|].
        simpl. unfold bind. by rewrite Hrun.
    + right. exists [], png, rest, c, st, e.
      split_and!; [done|constructor|done|done|].
      simpl. unfold bind. by rewrite (process_file_raises _ _ _ _ _ e).
Qed.

(** A loop that ends without an exception is the sequence of all its
    iterations. *)
Lemma convert_loop_replay q l pngs c st c' st' :
  convert_loop PIL OS q l pngs c st = (st', inr c') →
  replay PIL OS q l pngs c st c' st'.
Proof.
  intros Hloop.
  destruct (convert_loop_cases q l pngs c st)
    as [(c2 & st2 & Hloop2 & Hrep)|(? & ? & ? & ? & ? & ? & _ & _ & _ & _ & Hloop2)].
  - rewrite Hloop in Hloop2. by injection Hloop2 as <- <-.
  - rewrite Hloop in Hloop2. discriminate Hloop2.
Qed.

End Attempt.

(** ** The loop *)

Lemma skipped_dec (o : outcome) : {o = Skipped} + {o ≠ Skipped}.
Proof. destruct o; [by left|by right|by right]. Qed.

Section Loop.

Context (PIL : ImageCodec) (OS : Platform) (q : Z) (l : bool).

Lemma put_lookup_ne dest w (fs : gmap string dirent) k :
  k ≠ dest → put dest w fs !! k = fs !! k.
Proof. intros Hne. destruct w; simpl; [by rewrite lookup_insert_ne|done]. Qed.

Lemma iteration_keeps png st o evs k x :
  iteration PIL OS q l png st o evs →
  files st !! k = Some x → files (after st png o evs) !! k = Some x.
Proof.
  intros (_ & Hskip & _) Hk. unfold after; simpl. fold (webp_of png).
  destruct (decide (k = webp_of png)) as [->|Hne].
  - destruct Hskip as [_ Hs]. rewrite Hs by eauto. done.
  - by rewrite put_lookup_ne.
Qed.

Lemma iteration_adds png st o evs k :
  files st !! k = None → is_Some (files (after st png o evs) !! k) → k = webp_of png.
Proof.
  intros Hk Hs. unfold after in Hs; simpl in Hs. fold (webp_of png) in Hs.
  destruct (decide (k = webp_of png)) as [->|Hne]; [done|].
  rewrite put_lookup_ne, Hk in Hs by done. by destruct Hs.
Qed.

Lemma iteration_written png st o evs :
  is_Some (written o) → is_Some (files (after st png o evs) !! webp_of png).
Proof.
  intros [d Hd]. unfold after; simpl. fold (webp_of png). rewrite Hd. simpl.
  rewrite lookup_insert_eq. eauto.
Qed.

Lemma tally_sum o c : count_sum (tally o c) = S (count_sum c).
Proof. destruct o; unfold count_sum; simpl; lia. Qed.

Lemma tally_mono o c :
  (converted_count c ≤ converted_count (tally o c))%nat ∧
  (skipped_count c ≤ skipped_count (tally o c))%nat ∧
  (error_count c ≤ error_count (tally o c))%nat.
Proof. destruct o; simpl; lia. Qed.

Lemma replay_counts pngs c st c' st' :
  replay PIL OS q l pngs c st c' st' →
  count_sum c' = (count_sum c + List.length pngs)%nat ∧
  (converted_count c ≤ converted_count c')%nat ∧
  (skipped_count c ≤ skipped_count c')%nat ∧
  (error_count c ≤ error_count c')%nat.
Proof.
  induction 1 as [|png rest o evs c st c' st' Hit Hrep IH]; simpl; [lia|].
  rewrite tally_sum in IH. pose proof (tally_mono o c). lia.
Qed.

Lemma replay_frame pngs c st c' st' k x :
  replay PIL OS q l pngs c st c' st' →
  files st !! k = Some x → files st' !! k = Some x.
Proof.
  induction 1 as [|png rest o evs c st c' st' Hit Hrep IH]; [done|].
  intros Hk. apply IH. by eapply iteration_keeps.
Qed.

Lemma replay_new pngs c st c' st' k :
  replay PIL OS q l pngs c st c' st' →
  files st !! k = None → is_Some (files st' !! k) →
  ∃ png, png ∈ pngs ∧ k = webp_of png.
Proof.
  induction 1 as [|png rest o evs c st c' st' Hit Hrep IH]; intros Hk Hs.
  - rewrite Hk in Hs. by destruct Hs.
  - destruct (files (after st png o evs) !! k) as [y|] eqn:Hy.
    + exists png. split; [left|]. eapply iteration_adds; eauto.
    + destruct (IH eq_refl Hs) as (p & Hp & ->). exists p. split; [by right|done].
Qed.

Lemma report_reports png o : reports png (report png (webp_of png) o).
Proof. destruct o; simpl; by rewrite String.eqb_refl. Qed.

Lemma replay_stdout pngs c st c' st' :
  replay PIL OS q l pngs c st c' st' →
  ∃ lines, stdout st' = (stdout st ++ lines)%list ∧
           Forall2 (λ png m, reports png m) pngs lines.
Proof.
  induction 1 as [c st|png rest o evs c st c' st' Hit Hrep (lines & Hout & HF)].
  - exists []. by rewrite app_nil_r.
  - exists (report png (webp_of png) o :: lines). split.
    + rewrite Hout. unfold after; simpl. by rewrite <- app_assoc.
    + constructor; [apply report_reports|done].
Qed.

Lemma codec_call_same png p ev :
  is_codec_call_on p ev → is_codec_call_on png ev → p = png.
Proof.
  destruct ev; simpl; try done;
    intros H1%Is_true_true%String.eqb_eq H2%Is_true_true%String.eqb_eq; congruence.
Qed.

Lemma save_of_codec_call png ev : is_save_of png ev → is_codec_call_on png ev.
Proof. by destruct ev. Qed.

(** The calls of the loop. *)
Lemma replay_calls pngs c st c' st' :
  replay PIL OS q l pngs c st c' st' →
  ∃ evs, calls st' = (calls st ++ evs)%list ∧
    (∀ png, is_Some (files st !! webp_of png) ∨ png ∉ pngs →
            Forall (λ ev, ¬ is_codec_call_on png ev) evs) ∧
    (∀ ev, ev ∈ evs → is_save ev →
           ∃ png kw, png ∈ pngs ∧ ev = Save png (webp_of png) kw ∧
                     files st !! webp_of png = None) ∧
    (NoDup pngs → ∀ png, (List.length (filter (λ ev, is_save_of png ev) evs) ≤ 1)%nat).
Proof.
  induction 1 as [c st|png rest o evs c st c' st' Hit Hrep (evs' & Hcalls & Hno & Hsv & Hone)].
  - exists []. rewrite app_nil_r. split_and!; try done.
    + intros ev Hin. by apply elem_of_nil in Hin.
    + intros _ png. simpl. lia.
  - exists (FileExists (webp_of png) :: evs ++ evs')%list.
    destruct Hit as (Hrun & Hskip & Hnil & Hatt & Hsave & Hrep').
    assert (iteration PIL OS q l png st o evs) as Hit by done.
    split_and!.
    + rewrite Hcalls. unfold after; simpl. fold (webp_of png).
      rewrite <- app_assoc. reflexivity.
    + intros p Hp. constructor; [simpl; tauto|]. apply Forall_app. split.
      * destruct (skipped_dec o) as [Ho|Ho]; [rewrite (Hnil Ho); constructor|].
        destruct (Hatt Ho) as (_ & Hall & _).
        eapply Forall_impl; [exact Hall|]. simpl. intros ev Hev Hpev.
        pose proof (codec_call_same _ _ _ Hev Hpev) as ->.
        destruct Hp as [Hp|Hp]; [|apply Hp; left].
        apply Ho, Hskip, Hp.
      * apply Hno. destruct Hp as [[x Hx]|Hp].
        -- left. exists x. by eapply iteration_keeps.
        -- right. intros ?. apply Hp. by right.
    + intros ev [Heq|[Hin|Hin]%elem_of_app]%elem_of_cons Hs.
      * by subst ev.
      * destruct (skipped_dec o) as [Ho|Ho].
        { rewrite (Hnil Ho) in Hin. by apply elem_of_nil in Hin. }
        destruct (Hatt Ho) as (_ & _ & Hdest & _).
        destruct (Hdest ev Hin Hs) as [kw ->]. exists png, kw. split_and!; [left|done|].
        destruct (files st !! webp_of png) eqn:E; [|done].
        exfalso. apply Ho, Hskip. eauto.
      * destruct (Hsv ev Hin Hs) as (p & kw & Hp & -> & Hnone).
        exists p, kw. split_and!; [by right|done|].
        destruct (files st !! webp_of p) as [x|] eqn:E; [|done].
        erewrite iteration_keeps in Hnone; eauto. 
    + intros Hnd p. apply NoDup_cons in Hnd as [Hnotin Hnd].
      rewrite filter_cons_False by (simpl; tauto).
      rewrite filter_app, length_app.
      specialize (Hone Hnd p).
      destruct (decide (p = png)) as [->|Hne].
      * assert (filter (λ ev, is_save_of png ev) evs' = []) as ->.
        { assert (Forall (λ ev, ¬ is_codec_call_on png ev) evs') as Hall
            by (apply Hno; by right).
          clear -Hall. induction evs' as [|ev evs' IH]; [done|].
          apply Forall_cons in Hall as [Hev Hall].
          rewrite filter_cons_False; [by apply IH|].
          intros Hs. by apply Hev, save_of_codec_call. }
        simpl. rewrite Nat.add_0_r.
        destruct (skipped_dec o) as [Ho|Ho]; [rewrite (Hnil Ho); simpl; lia|].
        destruct (Hatt Ho) as (_ & _ & _ & Hle).
        etrans; [|exact Hle]. clear. induction evs as [|ev evs IH]; [done|].
        destruct (decide (is_save_of png ev)) as [Hs|Hs].
        -- rewrite filter_cons_True by done.
           rewrite (filter_cons_True (λ ev, is_save ev)) by (by destruct ev). simpl. lia.
        -- rewrite filter_cons_False by done.
           destruct (decide (is_save ev)).
           ++ rewrite (filter_cons_True (λ ev, is_save ev)) by done. simpl. lia.
           ++ rewrite (filter_cons_False (λ ev, is_save ev)) by done. done.
      * assert (filter (λ ev, is_save_of p ev) evs = []) as ->; [|simpl; lia].
        destruct (skipped_dec o) as [Ho|Ho]; [by rewrite (Hnil Ho)|].
        destruct (Hatt Ho) as (_ & Hall & _).
        clear -Hall Hne. induction evs as [|ev evs IH]; [done|].
        apply Forall_cons in Hall as [Hev Hall].
        rewrite filter_cons_False; [by apply IH|].
        intros Hs%save_of_codec_call. apply Hne. symmetry. by eapply codec_call_same.
Qed.

End Loop.

(** ** The whole call *)

Lemma printed_summary_skip pre rest :
  Forall (λ m, ¬ is_count_line m) pre →
  printed_summary (pre ++ rest) = printed_summary rest.
Proof.
  induction 1 as [|m pre Hm _ IH]; [done|].
  destruct m; simpl in *; try done; tauto.
Qed.

Lemma printed_summary_lines pre s :
  Forall (λ m, ¬ is_count_line m) pre →
  printed_summary (pre ++ summary_lines s) = Some s.
Proof. intros H. rewrite printed_summary_skip by done. by destruct s. Qed.

Lemma reports_not_count pngs lines :
  Forall2 (λ png m, reports png m) pngs lines →
  Forall (λ m, ¬ is_count_line m) lines.
Proof.
  induction 1 as [|png m pngs lines Hm _ IH]; constructor; [|done].
  destruct m; simpl in *; tauto.
Qed.

Lemma glob_NoDup entries ext : NoDup (glob_star entries ext).
Proof. unfold glob_star. apply NoDup_filter, NoDup_fst_map_to_list. Qed.

Lemma elem_of_glob entries ext name :
  name ∈ glob_star entries ext ↔ PathName.endswith name ext ∧ is_Some (entries !! name).
Proof.
  unfold glob_star. rewrite list_elem_of_filter, list_elem_of_fmap. split.
  - intros [He ([n x] & -> & Hin)]. split; [done|].
    apply elem_of_map_to_list in Hin. eauto.
  - intros [He [x Hx]]. split; [done|]. exists (name, x). split; [done|].
    by apply elem_of_map_to_list.
Qed.

Section Run.

Context (PIL : ImageCodec) (OS : Platform).

(** A call on a directory that holds PNG files is its loop, run from
    [loop_start]. *)
Lemma convert_png_to_webp_unfold dir q l fs entries :
  fs !! dir = Some (DirObj entries) →
  glob_star entries ".png" ≠ [] →
  convert_png_to_webp PIL OS dir q l fs
  = match convert_loop PIL OS q l (glob_star entries ".png") zero (loop_start dir entries) with
    | (st, inr c) => run_completed dir fs (List.length (glob_star entries ".png")) c st
    | (st, inl e) => run_aborted dir fs st e
    end.
Proof.
  intros Hdir Hne. unfold convert_png_to_webp. rewrite Hdir.
  unfold loop_start, probes.
  destruct (glob_star entries ".png") as [|png rest] eqn:Hglob; [done|].
  unfold bind at 1. unfold print at 1. simpl stdout. simpl calls. simpl files.
  unfold bind at 1.
  destruct (convert_loop PIL OS q l (png :: rest) zero _) as [st [e|c]]; [done|].
  unfold print_summary, bind, print, run_completed, summary_lines, summary_of. simpl.
  by rewrite <- !app_assoc.
Qed.

(** Such a call either runs the whole loop and prints the summary, or is
    left by the error of an existence test, after the iterations before
    it. *)
Lemma convert_png_to_webp_cases dir q l fs entries :
  fs !! dir = Some (DirObj entries) →
  glob_star entries ".png" ≠ [] →
  (∃ c st,
     replay PIL OS q l (glob_star entries ".png") zero (loop_start dir entries) c st ∧
     convert_png_to_webp PIL OS dir q l fs
     = run_completed dir fs (List.length (glob_star entries ".png")) c st) ∨
  (∃ before png rest c st e,
     glob_star entries ".png" = (before ++ png :: rest)%list ∧
     replay PIL OS q l before zero (loop_start dir entries) c st ∧
     files st !! webp_of png = None ∧
     stat_error OS (webp_of png) = Some e ∧
     convert_png_to_webp PIL OS dir q l fs
     = run_aborted dir fs (called st [FileExists (webp_of png)]) e).
Proof.
  intros Hdir Hne. rewrite (convert_png_to_webp_unfold dir q l fs entries Hdir Hne).
  destruct (convert_loop_cases PIL OS q l (glob_star entries ".png") zero
              (loop_start dir entries))
    as [(c & st & -> & Hrep)|(before & png & rest & c & st & e & Heq & Hrep & Hw & He & ->)].
  - left. eauto.
  - right. exists before, png, rest, c, st, e. done.
Qed.

(** A call that no exception leaves has run the whole loop. *)
Lemma convert_png_to_webp_dir dir q l fs entries :
  fs !! dir = Some (DirObj entries) →
  glob_star entries ".png" ≠ [] →
  run_uncaught (convert_png_to_webp PIL OS dir q l fs) = None →
  ∃ c st,
    replay PIL OS q l (glob_star entries ".png") zero (loop_start dir entries) c st ∧
    convert_png_to_webp PIL OS dir q l fs
    = run_completed dir fs (List.length (glob_star entries ".png")) c st.
Proof.
  intros Hdir Hne Hok.
  destruct (convert_png_to_webp_cases dir q l fs entries Hdir Hne)
    as [?|(? & ? & ? & ? & ? & ? & _ & _ & _ & _ & Hrun)]; [done|].
  rewrite Hrun in Hok. discriminate Hok.
Qed.

(** In every case a call has run the iterations of some first part of
    the listing; after them it made at most one more existence test, and
    printed nothing but the summary. *)
Lemma convert_png_to_webp_prefix dir q l fs entries :
  fs !! dir = Some (DirObj entries) →
  glob_star entries ".png" ≠ [] →
  ∃ before rest c st extra tail,
    glob_star entries ".png" = (before ++ rest)%list ∧
    replay PIL OS q l before zero (loop_start dir entries) c st ∧
    run_fs (convert_png_to_webp PIL OS dir q l fs) = <[dir := DirObj (files st)]> fs ∧
    run_calls (convert_png_to_webp PIL OS dir q l fs) = (calls st ++ extra)%list ∧
    (extra = [] ∨ ∃ webp, extra = [FileExists webp]) ∧
    run_stdout (convert_png_to_webp PIL OS dir q l fs) = (stdout st ++ tail)%list ∧
    (tail = [] ∨ ∃ s, tail = summary_lines s).
Proof.
  intros Hdir Hne.
  destruct (convert_png_to_webp_cases dir q l fs entries Hdir Hne)
    as [(c & st & Hrep & ->)|(before & png & rest & c & st & e & Heq & Hrep & _ & _ & ->)].
  - exists (glob_star entries ".png"), [], c, st, [], (summary_lines
      (summary_of (List.length (glob_star entries ".png")) c)).
    rewrite !app_nil_r. split_and!; try done; eauto.
  - exists before, (png :: rest), c, st, [FileExists (webp_of png)], [].
    rewrite !app_nil_r. split_and!; try done; eauto.
Qed.

(** What a call prints when an exception leaves it holds no summary. *)
Lemma printed_summary_completed dir q l fs s :
  printed_summary (run_stdout (convert_png_to_webp PIL OS dir q l fs)) = Some s →
  run_uncaught (convert_png_to_webp PIL OS dir q l fs) = None.
Proof.
  destruct (fs !! dir) as [[data|entries]|] eqn:Hdir.
  - unfold convert_png_to_webp. by rewrite Hdir.
  - destruct (decide (glob_star entries ".png" = [])) as [Hglob|Hglob].
    { unfold convert_png_to_webp. by rewrite Hdir, Hglob. }
    destruct (convert_png_to_webp_cases dir q l fs entries Hdir Hglob)
      as [(c & st & Hrep & ->)|(before & png & rest & c & st & e & _ & Hrep & _ & _ & ->)];
      [done|].
    simpl. intros Hs.
    destruct (replay_stdout _ _ _ _ _ _ _ _ _ Hrep) as (lines & Hout & Hlines).
    rewrite Hout, <- (app_nil_r (stdout _ ++ lines)), printed_summary_skip in Hs; [done|].
    apply Forall_app. split; [|by eapply reports_not_count].
    repeat constructor. simpl. tauto.
  - unfold convert_png_to_webp. rewrite Hdir. by destruct (stat_dir_error OS dir).
Qed.

End Run.

(** ** The encode-mode decision *)

Lemma quality_only_lookup q :
  quality_only q !! "format" = Some (PStr "WEBP") ∧
  quality_only q !! "quality" = Some (PInt q) ∧
  quality_only q !! "lossless" = None.
Proof. done. Qed.

Lemma save_calls (PIL : ImageCodec) png webp img kw st :
  calls (save_ PIL png webp img kw st).1 = (calls st ++ [Save png webp kw])%list.
Proof.
  unfold save_, bind, log, write_file, raise. simpl.
  by destruct (save PIL img kw) as [d|e [d|]].
Qed.

Section Mode.

Context (PIL : ImageCodec).

(** C3. An RGBA image whose smallest alpha sample is below 255 is saved as
    it was decoded, without conversion; the keyword arguments carry the
    [lossless] option as given, and [quality] exactly when [lossless] is
    false. *)
Theorem translucent_rgba_keeps_alpha q l png webp st data img extrema alpha :
  files st !! png = Some (File data) →
  Image_open PIL data = inr img →
  mode PIL img = "RGBA" →
  getextrema PIL img = inr extrema →
  extrema !! 3%nat = Some alpha →
  alpha.1 < 255 →
  ∃ kw,
    convert_image PIL q l png webp st
      = save_ PIL png webp img kw (called st [Open png; GetExtrema png]) ∧
    calls (convert_image PIL q l png webp st).1
      = (calls st ++ [Open png; GetExtrema png; Save png webp kw])%list ∧
    kw !! "format" = Some (PStr "WEBP") ∧
    kw !! "lossless" = Some (PBool l) ∧
    kw !! "quality" = (if l then None else Some (PInt q)) ∧
    (∀ key, key ∉ ["format"; "lossless"; "quality"] → kw !! key = None).
Proof.
  intros Hfile Hopen Hmode Hext Halpha Hlt.
  assert (∃ kw,
    convert_image PIL q l png webp st
      = save_ PIL png webp img kw (called st [Open png; GetExtrema png]) ∧
    kw !! "format" = Some (PStr "WEBP") ∧
    kw !! "lossless" = Some (PBool l) ∧
    kw !! "quality" = (if l then None else Some (PInt q)) ∧
    (∀ key, key ∉ ["format"; "lossless"; "quality"] → kw !! key = None))
    as (kw & Hrun & Hkw).
  { unfold convert_image, open_, getextrema_, index, lift, bind at 1 2 3 4 5, log, called.
    simpl. rewrite Hfile, Hopen. simpl. rewrite Hmode. simpl. rewrite Hext. simpl.
    rewrite Halpha. simpl. apply Z.ltb_lt in Hlt. rewrite Hlt. rewrite <- app_assoc. simpl.
    eexists. split; [reflexivity|].
    destruct l; simpl; split_and!; try done.
    - intros key Hk. rewrite !not_elem_of_cons in Hk. destruct Hk as (? & ? & ? & _).
      by rewrite ?lookup_insert_ne, ?lookup_singleton_ne.
    - intros key Hk. rewrite !not_elem_of_cons in Hk. destruct Hk as (? & ? & ? & _).
      by rewrite ?lookup_insert_ne, ?lookup_singleton_ne. }
  exists kw. split; [done|]. split; [|done].
  rewrite Hrun, save_calls. unfold called. simpl. by rewrite <- app_assoc.
Qed.

(** C4. An RGBA image whose smallest alpha sample is 255 is converted to
    RGB, and what is saved is the converted image, with the format and
    [quality] as the only keyword arguments, whatever [lossless] is. *)
Theorem opaque_rgba_drops_alpha q l png webp st data img extrema alpha :
  files st !! png = Some (File data) →
  Image_open PIL data = inr img →
  mode PIL img = "RGBA" →
  getextrema PIL img = inr extrema →
  extrema !! 3%nat = Some alpha →
  alpha.1 = 255 →
  let st3 := called st [Open png; GetExtrema png; Convert png "RGB"] in
  convert_image PIL q l png webp st
    = match convert PIL img "RGB" with
      | inr rgb => save_ PIL png webp rgb (quality_only q) st3
      | inl e => (st3, inl e)
      end ∧
  quality_only q !! "quality" = Some (PInt q) ∧
  quality_only q !! "lossless" = None ∧
  convert_image PIL q l png webp st = convert_image PIL q (negb l) png webp st.
Proof.
  intros Hfile Hopen Hmode Hext Halpha Heq st3.
  assert (∀ l', convert_image PIL q l' png webp st
    = match convert PIL img "RGB" with
      | inr rgb => save_ PIL png webp rgb (quality_only q) st3
      | inl e => (st3, inl e)
      end) as Hrun.
  { intros l'. unfold convert_image, open_, getextrema_, convert_, index, lift,
      bind at 1 2 3 4 5 6 7, log, called.
    simpl. rewrite Hfile, Hopen. simpl. rewrite Hmode. simpl. rewrite Hext. simpl.
    rewrite Halpha. simpl. rewrite Heq. simpl.
    subst st3. unfold called. simpl. rewrite <- !app_assoc. simpl.
    by destruct (convert PIL img "RGB"). }
  split_and!; try done. by rewrite !Hrun.
Qed.

(** C2, as the code has it. The extrema are requested exactly for the
    images whose mode is ['RGBA']. An image of any other mode, with an
    alpha band or without one, is saved as decoded with the format and
    [quality] as the only keyword arguments. *)
Theorem only_rgba_is_inspected q l png webp st data img :
  files st !! png = Some (File data) →
  Image_open PIL data = inr img →
  (mode PIL img = "RGBA" →
     ∃ evs, calls (convert_image PIL q l png webp st).1
            = (calls st ++ Open png :: GetExtrema png :: evs)%list) ∧
  (mode PIL img ≠ "RGBA" →
     convert_image PIL q l png webp st
       = save_ PIL png webp img (quality_only q) (called st [Open png]) ∧
     calls (convert_image PIL q l png webp st).1
       = (calls st ++ [Open png; Save png webp (quality_only q)])%list) ∧
  (has_alpha_channel (mode PIL img) = false → mode PIL img ≠ "RGBA") ∧
  quality_only q !! "quality" = Some (PInt q) ∧
  quality_only q !! "lossless" = None.
Proof.
  intros Hfile Hopen. split_and!; try done.
  - intros Hmode. run_monad. rewrite Hfile. simpl. rewrite Hopen. simpl.
    rewrite Hmode. simpl. split_codec; rewrite <- ?app_assoc; simpl; eexists; reflexivity.
  - intros Hmode.
    assert (convert_image PIL q l png webp st
            = save_ PIL png webp img (quality_only q) (called st [Open png])) as Hrun.
    { unfold convert_image, open_, lift, bind at 1 2, log, called.
      simpl. rewrite Hfile, Hopen. simpl.
      apply String.eqb_neq in Hmode. by rewrite Hmode. }
    split; [done|]. rewrite Hrun, save_calls. unfold called. simpl.
    by rewrite <- app_assoc.
  - intros Hno Heq. rewrite Heq in Hno. vm_compute in Hno. discriminate Hno.
Qed.

End Mode.

(** ** Failures inside the loop *)

Section Failure.

Context (PIL : ImageCodec) (OS : Platform).

Lemma convert_loop_app q l before rest c st :
  convert_loop PIL OS q l (before ++ rest) c st
  = match convert_loop PIL OS q l before c st with
    | (st1, inr c1) => convert_loop PIL OS q l rest c1 st1
    | (st1, inl e) => (st1, inl e)
    end.
Proof.
  revert c st. induction before as [|png before IH]; intros c st; simpl.
  - done.
  - unfold bind. destruct (process_file PIL OS q l png c st) as [st1 [e|c1]]; [done|].
    apply IH.
Qed.

Lemma replay_fun q l pngs c st c1 st1 c2 st2 :
  replay PIL OS q l pngs c st c1 st1 → 
  convert_loop PIL OS q l pngs c st = (st2, inr c2) → c1 = c2 ∧ st1 = st2.
Proof.
  induction 1 as [c st|png rest o evs c st c' st' Hit Hrep IH]; simpl.
  - by intros [= -> ->].
  - unfold bind. destruct Hit as (Hrun & _). rewrite Hrun. apply IH.
Qed.


(** An exception that leaves a call is the error of an existence test,
    on the source directory or on the counterpart of a PNG file found. *)
Lemma uncaught_is_stat_error dir q l fs e :
  run_uncaught (convert_png_to_webp PIL OS dir q l fs) = Some e →
  (fs !! dir = None ∧ stat_dir_error OS dir = Some e) ∨
  (∃ entries png,
     fs !! dir = Some (DirObj entries) ∧ png ∈ glob_star entries ".png" ∧
     stat_error OS (webp_of png) = Some e).
Proof.
  destruct (fs !! dir) as [[data|entries]|] eqn:Hdir.
  - unfold convert_png_to_webp. by rewrite Hdir.
  - destruct (decide (glob_star entries ".png" = [])) as [Hglob|Hglob].
    { unfold convert_png_to_webp. by rewrite Hdir, Hglob. }
    destruct (convert_png_to_webp_cases PIL OS dir q l fs entries Hdir Hglob)
      as [(c & st & _ & ->)|(before & png & rest & c & st & e' & Heq & _ & _ & He & ->)];
      [done|].
    simpl. intros [= <-]. right. exists entries, png. split_and!; [done| |done].
    rewrite Heq. apply elem_of_app. right. left.
  - unfold convert_png_to_webp. rewrite Hdir.
    destruct (stat_dir_error OS dir) as [e'|] eqn:He; [|done].
    simpl. intros [= <-]. by left.
Qed.


End Failure.

(** ** Calling twice *)

Section Rerun.

Context (PIL : ImageCodec) (OS : Platform) (q : Z) (l : bool).

Lemma replay_settles pngs c st c' st' :
  replay PIL OS q l pngs c st c' st' →
  ∀ png, png ∈ pngs → is_Some (files st !! png) → quiet PIL OS q l png (files st').
Proof.
  induction 1 as [c st|png0 rest o evs c st c' st' Hit Hrep IH]; intros p Hin Hp.
  - by apply elem_of_nil in Hin.
  - apply elem_of_cons in Hin as [->|Hin].
    2:{ apply IH; [done|]. destruct Hp as [x Hx]. exists x. by eapply iteration_keeps. }
    intros c2 st2 HF.
    destruct (files st' !! webp_of png0) as [y|] eqn:Hw.
    + exists Skipped, []. split_and!; try done.
      apply process_file_skips. rewrite HF, Hw. eauto.
    + assert (files st !! webp_of png0 = None) as Hw0.
      { destruct (files st !! webp_of png0) as [x|] eqn:Hx; [|done].
        pose proof (iteration_keeps _ _ _ _ _ _ _ _ _ _ Hit Hx) as Hx'.
        pose proof (replay_frame _ _ _ _ _ _ _ _ _ _ _ Hrep Hx') as Hx''. congruence. }
      pose proof Hit as (Hrun & Hskip & _ & _ & _ & Hagain).
      assert (o ≠ Skipped) as Ho.
      { intros Ho. apply Hskip in Ho. rewrite Hw0 in Ho. by destruct Ho. }
      assert (written o = None) as Hwr.
      { destruct (written o) as [d|] eqn:Hd; [|done].
        destruct (iteration_written png0 st o evs) as [x Hx]; [by rewrite Hd|].
        pose proof (replay_frame _ _ _ _ _ _ _ _ _ _ _ Hrep Hx). congruence. }
      exists o, evs. split_and!.
      * apply Hagain; [|by rewrite HF|done].
        rewrite HF. destruct Hp as [x Hx]. rewrite Hx.
        eapply replay_frame; [exact Hrep|]. by eapply iteration_keeps.
      * done.
      * intros d ->. done.
      * intros [? ?]. congruence.
Qed.

Lemma replay_no_errors pngs c st c' st' :
  replay PIL OS q l pngs c st c' st' →
  error_count c' = error_count c →
  ∀ png, png ∈ pngs → is_Some (files st' !! webp_of png).
Proof.
  induction 1 as [c st|png0 rest o evs c st c' st' Hit Hrep IH]; intros Herr p Hin.
  - by apply elem_of_nil in Hin.
  - destruct (replay_counts _ _ _ _ _ _ _ _ _ Hrep) as (_ & _ & _ & Hmono).
    assert (error_count (tally o c) = error_count c) as Hsame.
    { destruct o; simpl in *; try done. lia. }
    apply elem_of_cons in Hin as [->|Hin]; [|apply IH; [congruence|done]].
    destruct Hit as (_ & Hskip & _).
    destruct o as [|d|e w]; simpl in *.
    + destruct Hskip as [Hs _]. destruct (Hs eq_refl) as [x Hx]. exists x.
      eapply replay_frame; [exact Hrep|]. unfold after; simpl. done.
    + destruct (iteration_written png0 st (Converted d) evs) as [x Hx]; [by eauto|].
      exists x. by eapply replay_frame.
    + lia.
Qed.

(** A loop of quiet iterations converts nothing and leaves the directory
    as it is. *)
Lemma quiet_loop F pngs :
  (∀ png, png ∈ pngs → quiet PIL OS q l png F) →
  ∀ c st, files st = F →
    ∃ c' st' lines,
      convert_loop PIL OS q l pngs c st = (st', inr c') ∧
      files st' = F ∧
      stdout st' = (stdout st ++ lines)%list ∧
      converted_count c' = converted_count c ∧
      (∀ png, png ∈ pngs → is_Some (F !! webp_of png) →
              MsgSkipping png (webp_of png) ∈ lines) ∧
      ((∀ png, png ∈ pngs → is_Some (F !! webp_of png)) →
       skipped_count c' = (skipped_count c + List.length pngs)%nat).
Proof.
  induction pngs as [|png rest IH]; intros Hq c st HF.
  - exists c, st, []. rewrite app_nil_r. split_and!; try done.
    all: try (intros png Hin; by apply elem_of_nil in Hin).
    all: try (intros _; simpl; lia).
  - destruct (Hq png (list_elem_of_here _ _) c st HF) as (o & evs & Hrun & Hwr & Hnc & Hsk).
    destruct (IH (λ p Hp, Hq p (list_elem_of_further _ _ _ Hp)) (tally o c) (after st png o evs))
      as (c' & st' & lines & Hloop & HF' & Hout & Hconv & Hmsg & Hall).
    { unfold after; simpl. by rewrite Hwr. }
    exists c', st', (report png (webp_of png) o :: lines). split_and!.
    + simpl. unfold bind. by rewrite Hrun.
    + done.
    + rewrite Hout. unfold after; simpl. by rewrite <- app_assoc.
    + rewrite Hconv. destruct o as [|d|e w]; simpl; [done| |done]. by destruct (Hnc d).
    + intros p [->|Hin]%elem_of_cons Hp.
      * rewrite (Hsk Hp). left.
      * right. by apply Hmsg.
    + intros Hp. rewrite Hall by (intros p Hin; apply Hp; by right).
      rewrite (Hsk (Hp png (list_elem_of_here _ _))). simpl. lia.
Qed.

(** The summary of a call that ran the loop. *)
Lemma replay_summary dir entries c st s :
  replay PIL OS q l (glob_star entries ".png") zero (loop_start dir entries) c st →
  printed_summary (stdout st ++ summary_lines s) = Some s.
Proof.
  intros Hrep. destruct (replay_stdout _ _ _ _ _ _ _ _ _ Hrep) as (lines & -> & Hlines).
  apply printed_summary_lines, Forall_app. split; [|by eapply reports_not_count].
  repeat constructor. simpl. tauto.
Qed.

(** C1, as the code has it. After a call that no exception has left, a
    second call with the same arguments ends without an exception too,
    writes nothing and converts nothing; it skips every PNG file whose
    WebP counterpart exists after the first call; the files it does not
    skip are the ones that failed without output, and they fail again, so
    that skipped and errors add up to the total; and when the first call
    reported no error, the second one skips every file. *)
Theorem second_call_converts_nothing dir fs :
  let r1 := convert_png_to_webp PIL OS dir q l fs in
  let r2 := convert_png_to_webp PIL OS dir q l (run_fs r1) in
  run_uncaught r1 = None →
  run_uncaught r2 = None ∧
  run_fs r2 = run_fs r1 ∧
  (∀ s2, printed_summary (run_stdout r2) = Some s2 →
     converted s2 = 0%nat ∧
     (skipped s2 + errors s2)%nat = total_found s2 ∧
     (∀ s1, printed_summary (run_stdout r1) = Some s1 → errors s1 = 0%nat →
            skipped s2 = total_found s2)) ∧
  (∀ entries1 png,
     run_fs r1 !! dir = Some (DirObj entries1) →
     png ∈ glob_star entries1 ".png" →
     is_Some (entries1 !! webp_of png) →
     MsgSkipping png (webp_of png) ∈ run_stdout r2).
Proof.
  intros r1 r2. subst r1 r2.
  destruct (fs !! dir) as [[data|entries]|] eqn:Hdir.
  - assert (convert_png_to_webp PIL OS dir q l fs
            = {| run_fs := fs; run_calls := [DirExists dir; DirIsDir dir];
                 run_stdout := [MsgNotDir dir]; run_uncaught := None |}) as Hrun
      by (unfold convert_png_to_webp; by rewrite Hdir).
    rewrite Hrun. cbn [run_fs run_stdout run_uncaught]. rewrite Hrun. simpl.
    intros _. split_and!; try done. intros ? ?. by rewrite Hdir.
  - destruct (decide (glob_star entries ".png" = [])) as [Hglob|Hglob].
    + assert (convert_png_to_webp PIL OS dir q l fs
              = {| run_fs := fs; run_calls := probes dir;
                   run_stdout := [MsgNoPng dir]; run_uncaught := None |}) as Hrun
        by (unfold convert_png_to_webp; by rewrite Hdir, Hglob).
      rewrite Hrun. cbn [run_fs run_stdout run_uncaught]. rewrite Hrun. simpl.
      intros _. split_and!; try done.
      intros ? png. rewrite Hdir. intros [= <-]. rewrite Hglob.
      intros Hin. by apply elem_of_nil in Hin.
    + intros Hok.
      destruct (convert_png_to_webp_dir PIL OS dir q l fs entries Hdir Hglob Hok)
        as (c & st & Hrep & Hrun).
      rewrite Hrun. cbn [run_fs run_stdout run_completed].
      set (F := files st). set (fs1 := <[dir := DirObj F]> fs).
      assert (fs1 !! dir = Some (DirObj F)) as Hdir1 by apply lookup_insert_eq.
      assert (∀ png, png ∈ glob_star F ".png" → png ∈ glob_star entries ".png") as Hsame.
      { intros png [Hpng Hin]%elem_of_glob. apply elem_of_glob. split; [done|].
        destruct (entries !! png) as [x|] eqn:Hx; [eauto|].
        destruct (replay_new _ _ _ _ _ _ _ _ _ _ Hrep Hx Hin) as (p & _ & ->).
        unfold webp_of in Hpng. rewrite webp_not_png in Hpng. done. }
      assert (∀ png, png ∈ glob_star F ".png" → quiet PIL OS q l png F) as Hquiet.
      { intros png Hin. eapply replay_settles; [exact Hrep|by apply Hsame|].
        apply Hsame, elem_of_glob in Hin as [_ Hin]. done. }
      destruct (decide (glob_star F ".png" = [])) as [Hglob1|Hglob1].
      { unfold convert_png_to_webp. rewrite Hdir1, Hglob1. simpl. split_and!; try done.
        intros ? png He. try first [rewrite Hdir1 in He | rewrite lookup_insert_eq in He].
        injection He as <-.
        rewrite Hglob1. intros Hin. by apply elem_of_nil in Hin. }
      destruct (quiet_loop F (glob_star F ".png") Hquiet zero (loop_start dir F) eq_refl)
        as (c2 & st2 & lines & Hloop & HF2 & Hout & Hconv & Hmsg & Hall).
      pose proof (convert_loop_replay PIL OS q l _ _ _ _ _ Hloop) as Hrep2.
      rewrite (convert_png_to_webp_unfold PIL OS dir q l fs1 F Hdir1 Hglob1), Hloop.
      cbn [run_fs run_stdout run_uncaught run_completed].
      split_and!.
      * done.
      * rewrite HF2. unfold fs1. by rewrite insert_insert_eq.
      * intros s2. rewrite (replay_summary _ _ _ _ _ Hrep2). intros [= <-]. simpl.
        destruct (replay_counts _ _ _ _ _ _ _ _ _ Hrep2) as (Hsum & _).
        unfold count_sum in Hsum. simpl in *. split_and!; [lia|lia|].
        intros s1. rewrite (replay_summary _ _ _ _ _ Hrep). intros [= <-]. simpl.
        intros Herr. rewrite Hall; [simpl; lia|].
        intros png Hin. eapply replay_no_errors; [exact Hrep|by rewrite Herr|].
        by apply Hsame.
      * intros ? png He Hin Hw.
        try first [rewrite Hdir1 in He | rewrite lookup_insert_eq in He].
        injection He as <-. rewrite Hout. apply elem_of_app. left.
        apply elem_of_app. right. by apply Hmsg.
  - destruct (stat_dir_error OS dir) as [e|] eqn:He.
    { assert (run_uncaught (convert_png_to_webp PIL OS dir q l fs) = Some e) as ->
        by (unfold convert_png_to_webp; by rewrite Hdir, He).
      done. }
    assert (convert_png_to_webp PIL OS dir q l fs
            = {| run_fs := fs; run_calls := [DirExists dir];
                 run_stdout := [MsgDirMissing dir]; run_uncaught := None |}) as Hrun
      by (unfold convert_png_to_webp; by rewrite Hdir, He).
    rewrite Hrun. cbn [run_fs run_stdout run_uncaught]. rewrite Hrun. simpl.
    intros _. split_and!; try done. intros ? ?. by rewrite Hdir.
Qed.

End Rerun.

(** ** The claims about a whole call *)

Section Claims.

Context (PIL : ImageCodec) (OS : Platform).

(** A call prints a summary exactly when it ran the loop. *)
Lemma printed_summary_inv dir q l fs s :
  printed_summary (run_stdout (convert_png_to_webp PIL OS dir q l fs)) = Some s →
  ∃ entries, fs !! dir = Some (DirObj entries) ∧ glob_star entries ".png" ≠ [].
Proof.
  destruct (fs !! dir) as [[data|entries]|] eqn:Hdir.
  - unfold convert_png_to_webp. by rewrite Hdir.
  - destruct (decide (glob_star entries ".png" = [])) as [Hglob|Hglob]; [|eauto].
    unfold convert_png_to_webp. by rewrite Hdir, Hglob.
  - unfold convert_png_to_webp. rewrite Hdir. by destruct (stat_dir_error OS dir).
Qed.

(** C5. Count conservation: whenever a call prints its summary, the total
    it reports is the number of PNG files found, every one of these files
    has exactly one report line, in listing order, between the [Found]
    line and the summary, and the total is the sum of the converted, the
    skipped and the error counts. *)
Theorem count_conservation dir q l fs s :
  printed_summary (run_stdout (convert_png_to_webp PIL OS dir q l fs)) = Some s →
  total_found s = (converted s + skipped s + errors s)%nat ∧
  ∃ entries lines,
    fs !! dir = Some (DirObj entries) ∧
    total_found s = List.length (glob_star entries ".png") ∧
    Forall2 (λ png m, reports png m) (glob_star entries ".png") lines ∧
    run_stdout (convert_png_to_webp PIL OS dir q l fs)
      = MsgFound (total_found s) dir :: lines ++ summary_lines s.
Proof.
  intros Hs. destruct (printed_summary_inv _ _ _ _ _ Hs) as (entries & Hdir & Hne).
  pose proof (printed_summary_completed PIL OS _ _ _ _ _ Hs) as Hok.
  destruct (convert_png_to_webp_dir PIL OS dir q l fs entries Hdir Hne Hok)
    as (c & st & Hrep & Hrun).
  rewrite Hrun in Hs |- *. cbn [run_stdout run_completed] in *.
  destruct (replay_stdout _ _ _ _ _ _ _ _ _ Hrep) as (lines & Hout & Hlines).
  destruct (replay_counts _ _ _ _ _ _ _ _ _ Hrep) as (Hsum & _).
  rewrite Hout in Hs |- *.
  rewrite printed_summary_lines in Hs.
  2:{ apply Forall_app. split; [|by eapply reports_not_count].
      repeat constructor. simpl. tauto. }
  injection Hs as <-. simpl. split.
  - unfold count_sum in Hsum. simpl in Hsum. lia.
  - exists entries, lines. done.
Qed.

(** C7, as the code has it. A source directory that does not exist, or
    is not a directory, ends the call at once, and the call returns
    normally: it raises nothing, prints one error line and no summary,
    leaves the file system unchanged, and makes no call but the two
    tests on the path itself, so that nothing is listed, opened or
    written. The only exception is a missing path that [os.stat] cannot
    examine: then the error of the existence test leaves the call,
    which prints nothing. *)
Theorem bad_directory_fails_early dir q l fs :
  (fs !! dir = None ∨ ∃ data, fs !! dir = Some (RegFile data)) →
  let r := convert_png_to_webp PIL OS dir q l fs in
  (fs !! dir = None → stat_dir_error OS dir = None →
     run_stdout r = [MsgDirMissing dir] ∧ run_calls r = [DirExists dir] ∧
     run_uncaught r = None) ∧
  (∀ e, fs !! dir = None → stat_dir_error OS dir = Some e →
     run_stdout r = [] ∧ run_calls r = [DirExists dir] ∧ run_uncaught r = Some e) ∧
  ((∃ data, fs !! dir = Some (RegFile data)) →
     run_stdout r = [MsgNotDir dir] ∧ run_calls r = [DirExists dir; DirIsDir dir] ∧
     run_uncaught r = None) ∧
  printed_summary (run_stdout r) = None ∧
  run_fs r = fs ∧
  Forall (λ ev, ev = DirExists dir ∨ ev = DirIsDir dir) (run_calls r).
Proof.
  unfold convert_png_to_webp.
  intros [Hdir|[data Hdir]]; rewrite Hdir; [destruct (stat_dir_error OS dir) as [e|]|];
    simpl; split_and!; try done.
  all: try (by intros [? ?]).
  all: try (intros ? ? [= <-]; done).
  all: try (by repeat constructor).
  all: try (repeat constructor; by eauto).
Qed.

(** C8, as the code has it. A directory without PNG files ends the call
    after the listing: the single line [No PNG files found] is printed and
    no summary, no file is tested, opened or written, and the file system
    is unchanged. *)
Theorem no_png_returns_early dir q l fs entries :
  fs !! dir = Some (DirObj entries) →
  glob_star entries ".png" = [] →
  let r := convert_png_to_webp PIL OS dir q l fs in
  run_stdout r = [MsgNoPng dir] ∧
  printed_summary (run_stdout r) = None ∧
  run_calls r = [DirExists dir; DirIsDir dir; Glob dir "*.png"] ∧
  run_fs r = fs ∧
  run_uncaught r = None.
Proof.
  intros Hdir Hglob. unfold convert_png_to_webp. rewrite Hdir, Hglob. done.
Qed.

(** C9. Side-effect frame. Paths other than the source directory are
    untouched. In the directory every entry that existed keeps its
    content, so that no PNG file and no earlier WebP file is modified or
    removed; every new entry is the [.webp] counterpart of a PNG file
    found; every save goes to the counterpart of its PNG file, at a name
    that did not exist when the call began; and no PNG file is saved more
    than once. *)
Theorem side_effect_frame dir q l fs :
  let r := convert_png_to_webp PIL OS dir q l fs in
  (∀ p, p ≠ dir → run_fs r !! p = fs !! p) ∧
  (∀ data, fs !! dir = Some (RegFile data) → run_fs r = fs) ∧
  (fs !! dir = None → run_fs r = fs) ∧
  (∀ entries, fs !! dir = Some (DirObj entries) →
     ∃ entries', run_fs r !! dir = Some (DirObj entries') ∧
       (∀ name x, entries !! name = Some x → entries' !! name = Some x) ∧
       (∀ name, entries !! name = None → is_Some (entries' !! name) →
          ∃ png, png ∈ glob_star entries ".png" ∧ name = webp_of png) ∧
       (∀ ev, ev ∈ run_calls r → is_save ev →
          ∃ png kw, png ∈ glob_star entries ".png" ∧ ev = Save png (webp_of png) kw ∧
                    entries !! webp_of png = None) ∧
       (∀ png, (List.length (filter (λ ev, is_save_of png ev) (run_calls r)) ≤ 1)%nat)).
Proof.
  intros r. subst r.
  destruct (fs !! dir) as [[data|entries]|] eqn:Hdir.
  - unfold convert_png_to_webp. rewrite Hdir. simpl. split_and!; try done.
  - destruct (decide (glob_star entries ".png" = [])) as [Hglob|Hglob].
    + unfold convert_png_to_webp. rewrite Hdir, Hglob. simpl. split_and!; try done.
      intros ? [= <-]. exists entries. split_and!; try done.
      * intros name Hn Hs. rewrite Hn in Hs. by destruct Hs.
      * intros ev Hin Hs. repeat (apply elem_of_cons in Hin as [->|Hin]); try done.
        by apply elem_of_nil in Hin.
      * intros png. simpl. lia.
    + destruct (convert_png_to_webp_prefix PIL OS dir q l fs entries Hdir Hglob)
        as (before & rest & c & st & extra & tail & Hsplit & Hrep & Hfs & Hc & Hextra & _).
      rewrite Hfs, Hc. split_and!; try done.
      * intros p Hp. by rewrite lookup_insert_ne.
      * intros ? [= <-]. exists (files st). rewrite lookup_insert_eq.
        destruct (replay_calls _ _ _ _ _ _ _ _ _ Hrep) as (evs & Hcalls & _ & Hsv & Hone).
        assert (NoDup before) as Hnd.
        { pose proof (glob_NoDup entries ".png") as Hnd. rewrite Hsplit in Hnd.
          by apply NoDup_app in Hnd as (? & _). }
        assert (filter (λ ev, is_save ev) extra = []) as Hns
          by (by destruct Hextra as [->|[w ->]]).
        split_and!; try done.
        -- intros name x Hx. by eapply replay_frame.
        -- intros name Hn Hs. destruct (replay_new _ _ _ _ _ _ _ _ _ _ Hrep Hn Hs)
             as (png & Hpng & ->). exists png. split; [|done].
           rewrite Hsplit. apply elem_of_app. by left.
        -- intros ev Hin Hs. apply elem_of_app in Hin as [Hin|Hin].
           ++ rewrite Hcalls in Hin. apply elem_of_app in Hin as [Hin|Hin].
              ** unfold loop_start, probes in Hin. simpl in Hin.
                 repeat (apply elem_of_cons in Hin as [->|Hin]); try done.
                 by apply elem_of_nil in Hin.
              ** destruct (Hsv ev Hin Hs) as (png & kw & Hpng & ? & ?).
                 exists png, kw. split_and!; try done.
                 rewrite Hsplit. apply elem_of_app. by left.
           ++ destruct Hextra as [->|[w ->]].
              ** by apply elem_of_nil in Hin.
              ** apply list_elem_of_singleton in Hin as ->. done.
        -- intros png. rewrite Hcalls. rewrite !filter_app, !length_app.
           specialize (Hone Hnd png).
           assert (filter (λ ev, is_save_of png ev) extra = []) as ->
             by (by destruct Hextra as [->|[w ->]]).
           simpl. lia.
  - unfold convert_png_to_webp. rewrite Hdir.
    destruct (stat_dir_error OS dir); simpl; split_and!; try done.
Qed.

(** C10. A PNG file whose WebP counterpart exists is not handed to the
    image library. One iteration on such a file makes the existence test
    and nothing else, prints the skip line, and adds one to the skipped
    count only. In every iteration the existence test is the first call.
    Over a whole call, no call of the image library names a PNG file whose
    counterpart existed when the call began. *)
Theorem skip_before_decode q l :
  (∀ png c st, is_Some (files st !! webp_of png) →
     process_file PIL OS q l png c st
     = ({| files := files st;
           calls := calls st ++ [FileExists (webp_of png)];
           stdout := stdout st ++ [MsgSkipping png (webp_of png)] |},
        inr (bump_skipped c)) ∧
     error_count (bump_skipped c) = error_count c) ∧
  (∀ png c st, ∃ evs,
     calls (process_file PIL OS q l png c st).1
     = (calls st ++ FileExists (webp_of png) :: evs)%list ∧
     Forall (λ ev, is_codec_call_on png ev) evs) ∧
  (∀ dir fs entries png,
     fs !! dir = Some (DirObj entries) →
     is_Some (entries !! webp_of png) →
     Forall (λ ev, ¬ is_codec_call_on png ev)
            (run_calls (convert_png_to_webp PIL OS dir q l fs))).
Proof.
  split_and!.
  - intros png c st Hex. by rewrite (process_file_skips PIL OS q l png c st Hex).
  - intros png c st.
    destruct (process_file_iteration PIL OS q l png st)
      as [(o & evs & Hrun & Hskip & Hnil & Hatt & _)|(e & Hw & He)].
    + exists evs. rewrite Hrun. split; [done|].
      destruct (skipped_dec o) as [Ho|Ho]; [rewrite (Hnil Ho); constructor|].
      by destruct (Hatt Ho) as (_ & Hall & _).
    + exists []. rewrite (process_file_raises PIL OS q l png c st e Hw He).
      split; [done|constructor].
  - intros dir fs entries png Hdir Hex.
    destruct (decide (glob_star entries ".png" = [])) as [Hglob|Hglob].
    + unfold convert_png_to_webp. rewrite Hdir, Hglob. simpl.
      repeat constructor; simpl; tauto.
    + destruct (convert_png_to_webp_prefix PIL OS dir q l fs entries Hdir Hglob)
        as (before & rest & c & st & extra & tail & Hsplit & Hrep & Hfs & Hc & Hextra & _).
      rewrite Hc.
      destruct (replay_calls _ _ _ _ _ _ _ _ _ Hrep) as (evs & Hcalls & Hno & _).
      rewrite Hcalls. apply Forall_app. split; [apply Forall_app; split|].
      * repeat constructor; simpl; tauto.
      * apply Hno. by left.
      * destruct Hextra as [->|[w ->]]; repeat constructor; simpl; tauto.
Qed.

End Claims.

(** C8. The claim fails on a directory that holds no PNG file: the call
    prints one line and no summary, so there are no counts to be zero. *)
Lemma no_png_prints_no_summary :
  let r := Toy.go (Toy.disk Toy.no_pngs) in
  glob_star Toy.no_pngs ".png" = [] ∧
  run_stdout r = [MsgNoPng "./official-artwork"] ∧
  printed_summary (run_stdout r) ≠ Some no_counts.
Proof. vm_compute. split_and!; done. Qed.

Lemma count_conservation_witness :
  let s := {| total_found := 3; converted := 2; skipped := 1; errors := 0 |} in
  printed_summary (run_stdout (Toy.go (Toy.disk Toy.artwork))) = Some s ∧
  total_found s = (converted s + skipped s + errors s)%nat.
Proof.
  split; [vm_compute; reflexivity|].
  apply (count_conservation Toy.codec Toy.os "./official-artwork" 85 false (Toy.disk Toy.artwork)).
  vm_compute. reflexivity.
Defined.

(** C7. The claim fails on a directory that does not exist: the call
    prints the error line and returns; no exception is raised. *)
Lemma missing_directory_returns_normally :
  let r := convert_png_to_webp Toy.codec Toy.os "./sprites" 85 false (Toy.disk Toy.artwork) in
  Toy.disk Toy.artwork !! "./sprites" = None ∧
  run_stdout r = [MsgDirMissing "./sprites"] ∧
  run_uncaught r = None ∧
  ¬ (∃ e, run_uncaught r = Some e).
Proof.
  split_and!; [reflexivity|reflexivity|reflexivity|].
  intros [e He]. vm_compute in He. discriminate He.
Qed.

Lemma bad_directory_fails_early_witness :
  let r := convert_png_to_webp Toy.codec Toy.os "./sprites" 85 false (Toy.disk Toy.artwork) in
  Toy.disk Toy.artwork !! "./sprites" = None ∧
  stat_dir_error Toy.os "./sprites" = None ∧
  run_stdout r = [MsgDirMissing "./sprites"] ∧
  run_calls r = [DirExists "./sprites"] ∧
  run_uncaught r = None.
Proof.
  split; [reflexivity|]. split; [reflexivity|].
  destruct (bad_directory_fails_early Toy.codec Toy.os "./sprites" 85 false
              (Toy.disk Toy.artwork)) as (Hmissing & _); [left; reflexivity|].
  apply Hmissing; reflexivity.
Defined.

Lemma no_png_returns_early_witness :
  Toy.disk Toy.no_pngs !! "./official-artwork" = Some (DirObj Toy.no_pngs) ∧
  glob_star Toy.no_pngs ".png" = [] ∧
  printed_summary (run_stdout (Toy.go (Toy.disk Toy.no_pngs))) = None.
Proof.
  split; [reflexivity|]. split; [vm_compute; reflexivity|].
  apply (no_png_returns_early Toy.codec Toy.os "./official-artwork" 85 false
           (Toy.disk Toy.no_pngs) Toy.no_pngs); vm_compute; reflexivity.
Defined.

(** ** The claims on examples *)

(** C1. The claim fails when a file cannot be converted: the first call
    converts one file and fails on the other, and the second call tries
    the failed file again, so it skips one file out of two. *)
Lemma second_call_retries_failures :
  let r1 := Toy.go (Toy.disk Toy.with_broken) in
  let r2 := Toy.go (run_fs r1) in
  printed_summary (run_stdout r1)
    = Some {| total_found := 2; converted := 1; skipped := 0; errors := 1 |} ∧
  printed_summary (run_stdout r2)
    = Some {| total_found := 2; converted := 0; skipped := 1; errors := 1 |} ∧
  ¬ (∀ s2, printed_summary (run_stdout r2) = Some s2 →
           skipped s2 = total_found s2 ∧ converted s2 = 0%nat).
Proof.
  assert (printed_summary (run_stdout (Toy.go (run_fs (Toy.go (Toy.disk Toy.with_broken)))))
    = Some {| total_found := 2; converted := 0; skipped := 1; errors := 1 |}) as H2
    by (vm_compute; reflexivity).
  split_and!; [vm_compute; reflexivity|exact H2|].
  intros Hall. destruct (Hall _ H2) as [Hs _]. simpl in Hs. discriminate Hs.
Qed.

(** C2. The claim fails on a grey picture with an alpha band: its mode is
    ['LA'], its alpha samples go down to 0, and it is saved without its
    extrema ever being requested, with [quality] and without
    [lossless]. *)
Lemma gray_alpha_is_not_inspected :
  let r := convert_image Toy.codec 85 true "g.png" "g.webp" (Toy.fresh Toy.gray) in
  ∃ img,
    Image_open Toy.codec [Byte.x03; Byte.x00] = inr img ∧
    has_alpha_channel (mode Toy.codec img) = true ∧
    getextrema Toy.codec img = inr [(0, 255); (0, 255)] ∧
    calls r.1 = [Open "g.png"; Save "g.png" "g.webp" (quality_only 85)] ∧
    GetExtrema "g.png" ∉ calls r.1.
Proof.
  eexists. split; [reflexivity|]. split; [vm_compute; reflexivity|].
  split; [reflexivity|].
  assert (calls (convert_image Toy.codec 85 true "g.png" "g.webp" (Toy.fresh Toy.gray)).1
          = [Open "g.png"; Save "g.png" "g.webp" (quality_only 85)]) as ->
    by (vm_compute; reflexivity).
  split; [done|]. rewrite !not_elem_of_cons. split_and!; try done.
  apply not_elem_of_nil.
Qed.

Lemma second_call_converts_nothing_witness :
  let r1 := Toy.go (Toy.disk Toy.artwork) in
  run_uncaught r1 = None ∧
  run_uncaught (Toy.go (run_fs r1)) = None ∧
  run_fs (Toy.go (run_fs r1)) = run_fs r1.
Proof.
  assert (run_uncaught (Toy.go (Toy.disk Toy.artwork)) = None) as Hok
    by (vm_compute; reflexivity).
  split; [exact Hok|].
  destruct (second_call_converts_nothing Toy.codec Toy.os 85 false "./official-artwork"
              (Toy.disk Toy.artwork) Hok) as (Hok2 & Hfs & _).
  split; [exact Hok2|exact Hfs].
Defined.

Lemma only_rgba_is_inspected_witness :
  Toy.gray !! "g.png" = Some (File [Byte.x03; Byte.x00]) ∧
  calls (convert_image Toy.codec 85 true "g.png" "g.webp" (Toy.fresh Toy.gray)).1
  = [Open "g.png"; Save "g.png" "g.webp" (quality_only 85)].
Proof.
  split; [reflexivity|].
  edestruct (only_rgba_is_inspected Toy.codec 85 true "g.png" "g.webp" (Toy.fresh Toy.gray))
    as (_ & Hother & _); [reflexivity|reflexivity|].
  destruct Hother as [_ Hcalls]; [|exact Hcalls].
  vm_compute. discriminate.
Defined.

Lemma translucent_rgba_keeps_alpha_witness :
  ∃ kw,
    calls (convert_image Toy.codec 85 true "b.png" "b.webp" (Toy.fresh Toy.artwork)).1
      = [Open "b.png"; GetExtrema "b.png"; Save "b.png" "b.webp" kw] ∧
    kw !! "lossless" = Some (PBool true) ∧
    kw !! "quality" = None.
Proof.
  edestruct (translucent_rgba_keeps_alpha Toy.codec 85 true "b.png" "b.webp"
               (Toy.fresh Toy.artwork))
    as (kw & _ & Hcalls & _ & Hl & Hq & _);
    [reflexivity|reflexivity|reflexivity|reflexivity|reflexivity|vm_compute; reflexivity|].
  exists kw. split_and!; [exact Hcalls|exact Hl|exact Hq].
Defined.

Lemma opaque_rgba_drops_alpha_witness :
  convert_image Toy.codec 85 true "a.png" "a.webp" (Toy.fresh Toy.artwork)
  = convert_image Toy.codec 85 false "a.png" "a.webp" (Toy.fresh Toy.artwork).
Proof.
  edestruct (opaque_rgba_drops_alpha Toy.codec 85 true "a.png" "a.webp"
               (Toy.fresh Toy.artwork))
    as (_ & _ & _ & Hsame);
    [reflexivity|reflexivity|reflexivity|reflexivity|reflexivity|reflexivity|].
  exact Hsame.
Defined.


Lemma side_effect_frame_witness :
  run_fs (Toy.go (Toy.disk Toy.artwork)) !! "README.md" = Some (RegFile []).
Proof.
  destruct (side_effect_frame Toy.codec Toy.os "./official-artwork" 85 false (Toy.disk Toy.artwork))
    as (Hother & _).
  rewrite Hother; [reflexivity|discriminate].
Defined.

Lemma skip_before_decode_witness :
  Toy.artwork !! webp_of "c.png" = Some Toy.old_webp ∧
  Forall (λ ev, ¬ is_codec_call_on "c.png" ev) (run_calls (Toy.go (Toy.disk Toy.artwork))).
Proof.
  split; [reflexivity|].
  destruct (skip_before_decode Toy.codec Toy.os 85 false) as (_ & _ & Hrun).
  apply (Hrun "./official-artwork" (Toy.disk Toy.artwork) Toy.artwork "c.png");
    [reflexivity|]. exists Toy.old_webp. reflexivity.
Defined.

(** ** Counterpart names *)

Lemma chars_of_chars l : PathName.chars (PathName.of_chars l) = l.
Proof. apply list_ascii_of_string_of_list_ascii. Qed.

Lemma of_chars_chars s : PathName.of_chars (PathName.chars s) = s.
Proof. apply string_of_list_ascii_of_string. Qed.

Lemma chars_length s : List.length (PathName.chars s) = String.length s.
Proof. induction s as [|a s IH]; simpl; [done|]. by rewrite <- IH. Qed.

Lemma chars_inj s1 s2 : PathName.chars s1 = PathName.chars s2 → s1 = s2.
Proof. intros H. by rewrite <- (of_chars_chars s1), H, of_chars_chars. Qed.

Lemma rfind_from_absent c l i last :
  c ∉ l → PathName.rfind_from c l i last = last.
Proof.
  revert i last. induction l as [|x l IH]; intros i last Hc; simpl; [done|].
  apply not_elem_of_cons in Hc as [Hne Hc]. rewrite IH by done.
  destruct (Ascii.eqb_spec x c); congruence.
Qed.

Lemma rfind_from_last c l1 l2 i last :
  c ∉ l2 →
  PathName.rfind_from c (l1 ++ c :: l2) i last = i + Z.of_nat (List.length l1).
Proof.
  revert i last. induction l1 as [|x l1 IH]; intros i last Hc; simpl.
  - rewrite rfind_from_absent by done. rewrite Ascii.eqb_refl. lia.
  - rewrite IH by done. lia.
Qed.

Lemma rfind_png stem :
  PathName.rfind (stem +:+ ".png") "."%char = PathName.len stem.
Proof.
  unfold PathName.rfind, PathName.len. rewrite chars_app.
  change (PathName.chars ".png") with ("."%char :: PathName.chars "png").
  rewrite rfind_from_last.
  - rewrite chars_length. lia.
  - change (PathName.chars "png") with ["p"; "n"; "g"]%char.
    rewrite !not_elem_of_cons. split_and!; try done. apply not_elem_of_nil.
Qed.

(** X1. The counterpart of [stem.png] is [stem.webp]: the base name is
    kept, dots inside it included, and only the last suffix is replaced. *)
Theorem counterpart_keeps_stem stem :
  stem ≠ "" → webp_of (stem +:+ ".png") = stem +:+ ".webp".
Proof.
  intros Hstem. unfold webp_of, PathName.with_suffix, PathName.suffix.
  rewrite rfind_png.
  assert (0 < String.length stem)%nat as Hpos by (destruct stem; [done|simpl; lia]).
  assert (String.length (stem +:+ ".png") = String.length stem + 4)%nat as Hlen.
  { rewrite <- !chars_length, chars_app, length_app. done. }
  unfold PathName.len. rewrite Hlen.
  replace ((0 <? Z.of_nat (String.length stem))
           && (Z.of_nat (String.length stem) <? Z.of_nat (String.length stem + 4) - 1))
    with true by (symmetry; apply andb_true_iff; split; apply Z.ltb_lt; lia).
  rewrite Nat2Z.id, chars_app.
  rewrite <- (chars_length stem), drop_app_length.
  change (PathName.of_chars (PathName.chars ".png")) with ".png". simpl String.eqb.
  cbn iota. rewrite chars_length.
  replace (String.length stem + 4 - String.length ".png")%nat with
    (List.length (PathName.chars stem)) by (rewrite chars_length; simpl; lia).
  by rewrite take_app_length, of_chars_chars.
Qed.

(** The hidden name [.png] has no suffix for [pathlib], so [.webp] is
    appended to it. *)
Lemma counterpart_of_hidden : webp_of ".png" = ".png.webp".
Proof. reflexivity. Qed.

Lemma endswith_split name ext :
  PathName.endswith name ext → ∃ stem, name = stem +:+ ext.
Proof.
  unfold PathName.endswith. intros [k Hk]%bool_decide_unpack.
  exists (PathName.of_chars k). apply chars_inj. by rewrite chars_app, chars_of_chars.
Qed.

Lemma app_string_inj_l s1 s2 t : s1 +:+ t = s2 +:+ t → s1 = s2.
Proof.
  intros H. apply chars_inj. apply (f_equal PathName.chars) in H.
  rewrite !chars_app in H. by apply app_inv_tail in H.
Qed.

(** X2. Two different PNG names have different counterparts, except for
    the pair [.png] and [.png.png], which both map to [.png.webp]. *)
Theorem counterpart_collisions n1 n2 :
  PathName.endswith n1 ".png" → PathName.endswith n2 ".png" →
  webp_of n1 = webp_of n2 →
  n1 = n2 ∨ (n1 = ".png" ∧ n2 = ".png.png") ∨ (n1 = ".png.png" ∧ n2 = ".png").
Proof.
  intros [s1 ->]%endswith_split [s2 ->]%endswith_split.
  destruct (decide (s1 = "")) as [->|H1], (decide (s2 = "")) as [->|H2].
  - by left.
  - rewrite (counterpart_keeps_stem s2) by done. change ("" +:+ ".png") with ".png".
    rewrite counterpart_of_hidden. change ".png.webp" with (".png" +:+ ".webp").
    intros <-%app_string_inj_l. right. left. done.
  - rewrite (counterpart_keeps_stem s1) by done. change ("" +:+ ".png") with ".png".
    rewrite counterpart_of_hidden. change ".png.webp" with (".png" +:+ ".webp").
    intros ->%app_string_inj_l. right. right. done.
  - rewrite !counterpart_keeps_stem by done. intros ->%app_string_inj_l. by left.
Qed.


(** ** More on the loop *)

Section LoopFacts.

Context (PIL : ImageCodec) (OS : Platform) (q : Z) (l : bool).

Lemma count_lines_app f out1 out2 :
  count_lines f (out1 ++ out2) = (count_lines f out1 + count_lines f out2)%nat.
Proof. unfold count_lines. by rewrite filter_app, length_app. Qed.

Lemma count_lines_cons f m out :
  count_lines f (m :: out) = ((if f m then 1 else 0) + count_lines f out)%nat.
Proof.
  unfold count_lines. destruct (f m) eqn:Hm.
  - rewrite filter_cons_True by (simpl; by rewrite Hm). done.
  - rewrite filter_cons_False by (simpl; rewrite Hm; tauto). done.
Qed.

(** The counters move with the lines the loop prints. *)
Lemma replay_tally pngs c st c' st' :
  replay PIL OS q l pngs c st c' st' →
  ∃ lines, stdout st' = (stdout st ++ lines)%list ∧
    converted_count c' = (converted_count c + count_lines is_converted_line lines)%nat ∧
    skipped_count c' = (skipped_count c + count_lines is_skipping_line lines)%nat ∧
    error_count c' = (error_count c + count_lines is_error_line lines)%nat.
Proof.
  induction 1 as [c st|png rest o evs c st c' st' Hit Hrep (lines & Hout & Hc & Hs & He)].
  - exists []. rewrite app_nil_r. unfold count_lines. simpl. split_and!; [done|lia..].
  - exists (report png (webp_of png) o :: lines). split.
    + rewrite Hout. unfold after; simpl. by rewrite <- app_assoc.
    + rewrite !count_lines_cons, Hc, Hs, He. destruct o; simpl; lia.
Qed.

(** After the loop every file has its counterpart or an error line, and
    a file reported as converted has its counterpart. *)
Lemma replay_settled pngs c st c' st' :
  replay PIL OS q l pngs c st c' st' →
  ∃ lines, stdout st' = (stdout st ++ lines)%list ∧
    (∀ png, png ∈ pngs →
       is_Some (files st' !! webp_of png) ∨
       ∃ reason, MsgErrorConverting png reason ∈ lines) ∧
    (∀ png webp, MsgConverted png webp ∈ lines →
       png ∈ pngs ∧ webp = webp_of png ∧ is_Some (files st' !! webp)).
Proof.
  induction 1 as [c st|png rest o evs c st c' st' Hit Hrep (lines & Hout & Hall & Hconv)].
  - exists []. rewrite app_nil_r. split_and!; [done| |].
    + intros png Hin. by apply elem_of_nil in Hin.
    + intros png webp Hin. by apply elem_of_nil in Hin.
  - exists (report png (webp_of png) o :: lines). split_and!.
    + rewrite Hout. unfold after; simpl. by rewrite <- app_assoc.
    + intros p [->|Hin]%elem_of_cons.
      * destruct Hit as (_ & Hskip & _).
        destruct o as [|d|e w].
        -- left. destruct Hskip as [Hs _]. destruct (Hs eq_refl) as [x Hx]. exists x.
           eapply replay_frame; [exact Hrep|]. done.
        -- left. destruct (iteration_written png st (Converted d) evs) as [x Hx]; [by eauto|].
           exists x. by eapply replay_frame.
        -- right. exists (str e). left.
      * destruct (Hall p Hin) as [?|[reason ?]]; [by left|].
        right. exists reason. by right.
    + intros p webp [Heq|Hin]%elem_of_cons.
      * destruct o as [|d|e w]; simpl in Heq; try done. injection Heq as -> ->.
        split_and!; [left|done|].
        destruct (iteration_written png st (Converted d) evs) as [x Hx]; [by eauto|].
        exists x. by eapply replay_frame.
      * destruct (Hconv p webp Hin) as (? & ? & ?). split_and!; [by right|done|done].
Qed.

Lemma put_size dest w (fs : gmap string dirent) :
  fs !! dest = None →
  size (put dest w fs) = (size fs + match w with Some _ => 1 | None => 0 end)%nat.
Proof.
  intros Hd. destruct w; simpl; [|lia]. rewrite map_size_insert_None by done. lia.
Qed.

(** The directory grows by one entry for every converted file, and by at
    most one for every failed one. *)
Lemma replay_growth pngs c st c' st' :
  replay PIL OS q l pngs c st c' st' →
  (size (files st) + converted_count c' ≤ size (files st') + converted_count c)%nat ∧
  (size (files st') + converted_count c + error_count c
     ≤ size (files st) + converted_count c' + error_count c')%nat.
Proof.
  induction 1 as [c st|png rest o evs c st c' st' Hit Hrep [IH1 IH2]]; [lia|].
  destruct Hit as (_ & Hskip & _).
  assert (size (files (after st png o evs))
          = (size (files st) + match written o with Some _ => 1 | None => 0 end)%nat) as Hsize.
  { unfold after; simpl. fold (webp_of png).
    destruct o as [|d|e w]; [done| |].
    - apply put_size. destruct (files st !! webp_of png) as [x|] eqn:E; [|done].
      destruct Hskip as [_ Hs]. specialize (Hs (ex_intro _ x eq_refl)). discriminate Hs.
    - apply put_size. destruct (files st !! webp_of png) as [x|] eqn:E; [|done].
      destruct Hskip as [_ Hs]. specialize (Hs (ex_intro _ x eq_refl)). discriminate Hs. }
  rewrite Hsize in IH1, IH2. destruct o as [|d|e [d|]]; simpl in *; lia.
Qed.

Lemma replay_app_inv before rest c st c' st' :
  replay PIL OS q l (before ++ rest) c st c' st' →
  ∃ c1 st1, replay PIL OS q l before c st c1 st1 ∧ replay PIL OS q l rest c1 st1 c' st'.
Proof.
  revert c st. induction before as [|png before IH]; intros c st Hrep; simpl in Hrep.
  - exists c, st. split; [constructor|done].
  - inversion Hrep as [|? ? o evs ? ? ? ? Hit Htail]; subst.
    destruct (IH _ _ Htail) as (c1 & st1 & Hb & Hr).
    exists c1, st1. split; [by econstructor|done].
Qed.

End LoopFacts.

(** ** More on a whole call *)

Section RunFacts.

Context (PIL : ImageCodec) (OS : Platform) (q : Z) (l : bool).

(** The directory after a call, against the directory before it. *)
Lemma run_entries dir fs entries :
  fs !! dir = Some (DirObj entries) →
  ∃ entries',
    run_fs (convert_png_to_webp PIL OS dir q l fs) !! dir = Some (DirObj entries') ∧
    (∀ k x, entries !! k = Some x → entries' !! k = Some x) ∧
    (∀ k, entries !! k = None → is_Some (entries' !! k) →
          ∃ png, png ∈ glob_star entries ".png" ∧ k = webp_of png).
Proof.
  intros Hdir.
  destruct (decide (glob_star entries ".png" = [])) as [Hglob|Hglob].
  - exists entries. unfold convert_png_to_webp. rewrite Hdir, Hglob. simpl.
    split_and!; try done. intros k Hk Hs. rewrite Hk in Hs. by destruct Hs.
  - destruct (convert_png_to_webp_prefix PIL OS dir q l fs entries Hdir Hglob)
      as (before & rest & c & st & extra & tail & Hsplit & Hrep & Hfs & _).
    exists (files st). rewrite Hfs, lookup_insert_eq. split_and!; [done| |].
    + intros k x Hk. by eapply replay_frame.
    + intros k Hk Hs. destruct (replay_new _ _ _ _ _ _ _ _ _ _ Hrep Hk Hs) as (png & ? & ->).
      exists png. split; [|done]. rewrite Hsplit. apply elem_of_app. by left.
Qed.

(** X3. A call does not change which PNG files the directory holds: the
    files found after it are the files found before it. *)
Theorem same_png_files_after_call dir fs entries entries' :
  fs !! dir = Some (DirObj entries) →
  run_fs (convert_png_to_webp PIL OS dir q l fs) !! dir = Some (DirObj entries') →
  glob_star entries' ".png" ≡ₚ glob_star entries ".png" ∧
  List.length (glob_star entries' ".png") = List.length (glob_star entries ".png").
Proof.
  intros Hdir Hdir'.
  destruct (run_entries dir fs entries Hdir) as (e' & He & Hkeep & Hnew).
  rewrite Hdir' in He. injection He as <-.
  assert (glob_star entries' ".png" ≡ₚ glob_star entries ".png") as Hperm.
  { apply NoDup_Permutation; [apply glob_NoDup..|].
    intros name. rewrite !elem_of_glob. split; intros [Hpng Hin]; (split; [done|]).
    - destruct (entries !! name) as [x|] eqn:Hx; [eauto|].
      destruct (Hnew name Hx Hin) as (p & _ & ->).
      unfold webp_of in Hpng. by rewrite webp_not_png in Hpng.
    - destruct Hin as [x Hx]. exists x. by apply Hkeep. }
  split; [done|]. by rewrite Hperm.
Qed.

(** X4. The numbers of the summary are the numbers of lines printed: as
    many converted files as [Converted] lines, as many skipped files as
    [Skipping] lines, as many errors as [Error converting] lines. *)
Theorem summary_counts_the_lines dir fs s :
  printed_summary (run_stdout (convert_png_to_webp PIL OS dir q l fs)) = Some s →
  let out := run_stdout (convert_png_to_webp PIL OS dir q l fs) in
  converted s = count_lines is_converted_line out ∧
  skipped s = count_lines is_skipping_line out ∧
  errors s = count_lines is_error_line out.
Proof.
  intros Hs out. subst out.
  destruct (printed_summary_inv _ _ _ _ _ _ _ Hs) as (entries & Hdir & Hglob).
  pose proof (printed_summary_completed PIL OS _ _ _ _ _ Hs) as Hok.
  destruct (convert_png_to_webp_dir PIL OS dir q l fs entries Hdir Hglob Hok)
    as (c & st & Hrep & Hrun).
  rewrite Hrun in Hs |- *. cbn [run_stdout run_completed] in *.
  rewrite (replay_summary _ _ _ _ _ _ _ _ _ Hrep) in Hs. injection Hs as <-.
  destruct (replay_tally _ _ _ _ _ _ _ _ _ Hrep) as (lines & Hout & Hc & Hsk & He).
  rewrite Hout, !count_lines_app.
  change (count_lines is_converted_line (stdout (loop_start dir entries))) with 0%nat.
  change (count_lines is_skipping_line (stdout (loop_start dir entries))) with 0%nat.
  change (count_lines is_error_line (stdout (loop_start dir entries))) with 0%nat.
  change (count_lines is_converted_line (summary_lines _)) with 0%nat.
  change (count_lines is_skipping_line (summary_lines _)) with 0%nat.
  change (count_lines is_error_line (summary_lines _)) with 0%nat.
  simpl in *. lia.
Qed.

(** X5. After a call that no exception has left, every PNG file found
    has its counterpart in the directory, or an error line. When the
    error of an existence test leaves the call, this holds for the files
    listed before the one whose counterpart could not be examined, and
    that counterpart is not there. In both cases a [Converted] line is
    only printed for a file found, names its counterpart, and the
    counterpart is there. *)
Theorem every_png_is_settled dir fs entries :
  fs !! dir = Some (DirObj entries) →
  let r := convert_png_to_webp PIL OS dir q l fs in
  ∃ entries',
    run_fs r !! dir = Some (DirObj entries') ∧
    (run_uncaught r = None →
     ∀ png, png ∈ glob_star entries ".png" →
       is_Some (entries' !! webp_of png) ∨
       ∃ reason, MsgErrorConverting png reason ∈ run_stdout r) ∧
    (∀ e, run_uncaught r = Some e →
     ∃ before png rest,
       glob_star entries ".png" = (before ++ png :: rest)%list ∧
       stat_error OS (webp_of png) = Some e ∧
       entries' !! webp_of png = None ∧
       ∀ p, p ∈ before →
         is_Some (entries' !! webp_of p) ∨
         ∃ reason, MsgErrorConverting p reason ∈ run_stdout r) ∧
    (∀ png webp, MsgConverted png webp ∈ run_stdout r →
       png ∈ glob_star entries ".png" ∧ webp = webp_of png ∧ is_Some (entries' !! webp)).
Proof.
  intros Hdir r. subst r.
  destruct (decide (glob_star entries ".png" = [])) as [Hglob|Hglob].
  - exists entries. unfold convert_png_to_webp. rewrite Hdir, Hglob. simpl.
    split_and!; [done| | |].
    + intros _ png Hin. by apply elem_of_nil in Hin.
    + intros e [=].
    + intros png webp [Heq|Hin]%elem_of_cons; [done|by apply elem_of_nil in Hin].
  - destruct (convert_png_to_webp_cases PIL OS dir q l fs entries Hdir Hglob)
      as [(c & st & Hrep & Hrun)
         |(before & png & rest & c & st & e & Hsplit & Hrep & Hw & He & Hrun)];
      exists (files st); rewrite Hrun; simpl; rewrite lookup_insert_eq;
      destruct (replay_settled _ _ _ _ _ _ _ _ _ Hrep) as (lines & Hout & Hall & Hconv);
      rewrite Hout; simpl.
    + split_and!; [done| | |].
      * intros _ png Hin. destruct (Hall png Hin) as [?|[reason Hr]]; [by left|].
        right. exists reason. right. apply elem_of_app. by left.
      * intros e [=].
      * intros png webp [Heq|[Hin|Hin]%elem_of_app]%elem_of_cons; [done|by apply Hconv|].
        unfold summary_lines in Hin.
        repeat (apply elem_of_cons in Hin as [Heq|Hin]; [done|]).
        by apply elem_of_nil in Hin.
    + split_and!; [done| | |].
      * intros [=].
      * intros e' [= <-]. exists before, png, rest. split_and!; try done.
        intros p Hp. destruct (Hall p Hp) as [?|[reason Hr]]; [by left|].
        right. exists reason. by right.
      * intros p webp [Heq|Hin]%elem_of_cons; [done|].
        destruct (Hconv p webp Hin) as (Hp & ? & ?). split_and!; try done.
        rewrite Hsplit. apply elem_of_app. by left.
Qed.

(** X6. The directory grows by at least the number of converted files
    and by at most the number of converted and failed files. *)
Theorem directory_growth dir fs entries s :
  fs !! dir = Some (DirObj entries) →
  printed_summary (run_stdout (convert_png_to_webp PIL OS dir q l fs)) = Some s →
  ∃ entries',
    run_fs (convert_png_to_webp PIL OS dir q l fs) !! dir = Some (DirObj entries') ∧
    (size entries + converted s ≤ size entries')%nat ∧
    (size entries' ≤ size entries + converted s + errors s)%nat.
Proof.
  intros Hdir Hs.
  destruct (printed_summary_inv _ _ _ _ _ _ _ Hs) as (entries0 & Hdir0 & Hglob).
  rewrite Hdir in Hdir0. injection Hdir0 as <-.
  pose proof (printed_summary_completed PIL OS _ _ _ _ _ Hs) as Hok.
  destruct (convert_png_to_webp_dir PIL OS dir q l fs entries Hdir Hglob Hok)
    as (c & st & Hrep & Hrun).
  rewrite Hrun in Hs |- *. cbn [run_stdout run_fs run_completed] in *.
  rewrite (replay_summary _ _ _ _ _ _ _ _ _ Hrep) in Hs. injection Hs as <-.
  exists (files st). rewrite lookup_insert_eq. split; [done|].
  destruct (replay_growth _ _ _ _ _ _ _ _ _ Hrep) as [H1 H2]. simpl in *. lia.
Qed.

(** X7. What the loop has written stays: every entry the directory holds
    after the first files of the list is there, unchanged, when the loop
    over the whole list ends, whatever happens to the later files and
    however the loop ends. *)
Theorem no_rollback before rest c st c1 st1 st' r :
  convert_loop PIL OS q l before c st = (st1, inr c1) →
  convert_loop PIL OS q l (before ++ rest) c st = (st', r) →
  ∀ k x, files st1 !! k = Some x → files st' !! k = Some x.
Proof.
  intros Hb Hall k x Hk. rewrite convert_loop_app, Hb in Hall.
  destruct (convert_loop_cases PIL OS q l rest c1 st1)
    as [(c2 & st2 & Hloop & Hrep)
       |(done_ & png & rest' & c2 & st2 & e & _ & Hrep & _ & _ & Hloop)];
    rewrite Hall in Hloop; injection Hloop as -> ->.
  - by eapply replay_frame.
  - simpl. by eapply replay_frame.
Qed.

(** X8. Files are handled independently. In a call that no exception
    has left, for a PNG file that shares its counterpart with no other
    file found, the call leaves at the counterpart what one iteration on
    that file alone, over the directory as it was, leaves there; and it
    prints the line and makes the calls of that iteration. *)
Theorem file_outcome_is_independent dir fs entries png :
  fs !! dir = Some (DirObj entries) →
  png ∈ glob_star entries ".png" →
  (∀ p, p ∈ glob_star entries ".png" → webp_of p = webp_of png → p = png) →
  run_uncaught (convert_png_to_webp PIL OS dir q l fs) = None →
  let r := convert_png_to_webp PIL OS dir q l fs in
  let alone :=
    (process_file PIL OS q l png zero {| files := entries; calls := []; stdout := [] |}).1 in
  ∃ entries',
    run_fs r !! dir = Some (DirObj entries') ∧
    entries' !! webp_of png = files alone !! webp_of png ∧
    (∀ m, m ∈ stdout alone → m ∈ run_stdout r) ∧
    (∀ ev, ev ∈ calls alone → ev ∈ run_calls r).
Proof.
  intros Hdir Hin Huniq Hok r alone. subst r alone.
  assert (glob_star entries ".png" ≠ []) as Hglob.
  { intros Hnil. rewrite Hnil in Hin. by apply elem_of_nil in Hin. }
  destruct (convert_png_to_webp_dir PIL OS dir q l fs entries Hdir Hglob Hok)
    as (c & st & Hrep & Hrun).
  rewrite Hrun. cbn [run_fs run_stdout run_calls run_completed].
  exists (files st). rewrite lookup_insert_eq. split; [done|].
  pose proof (glob_NoDup entries ".png") as Hnd.
  destruct (list_elem_of_split _ _ Hin) as (before & rest & Hsplit).
  rewrite Hsplit in Hrep, Hnd, Huniq.
  apply replay_app_inv in Hrep as (c1 & st1 & Hb & Hrest).
  inversion Hrest as [|? ? o evs ? ? ? ? Hit Htail]; subst.
  apply NoDup_app in Hnd as (_ & Hnotb & Hnd). apply NoDup_cons in Hnd as [Hnotr _].
  assert (is_Some (entries !! png)) as [x Hx] by (by apply elem_of_glob in Hin as [_ ?]).
  assert (files st1 !! png = Some x) as Hpng1.
  { eapply replay_frame; [exact Hb|]. done. }
  assert (files st1 !! webp_of png = entries !! webp_of png) as Hw1.
  { destruct (entries !! webp_of png) as [y|] eqn:Hy.
    - eapply replay_frame; [exact Hb|]. done.
    - destruct (files st1 !! webp_of png) as [y|] eqn:Hy1; [|done].
      destruct (replay_new _ _ _ _ _ _ _ _ _ _ Hb Hy (ex_intro _ y Hy1)) as (p & Hp & Heq).
      assert (p = png) as -> by (apply Huniq; [apply elem_of_app; by left|done]).
      exfalso. eapply Hnotb; [exact Hp|left]. }
  set (st0 := {| files := entries; calls := []; stdout := [] |}).
  assert (process_file PIL OS q l png zero st0 = (after st0 png o evs, inr (tally o zero)))
    as Halone.
  { pose proof Hit as (Hrun1 & Hskip & Hnil & _ & _ & Hagain).
    destruct (entries !! webp_of png) as [y|] eqn:Hy.
    - assert (o = Skipped) as -> by (apply Hskip; rewrite Hw1; eauto).
      rewrite (Hnil eq_refl). apply process_file_skips. simpl. rewrite Hy. eauto.
    - apply Hagain; simpl; [by rewrite Hx, Hpng1|done|].
      intros Ho. apply Hskip in Ho. rewrite Hw1 in Ho. by destruct Ho. }
  rewrite Halone. cbn [fst].
  destruct (replay_stdout _ _ _ _ _ _ _ _ _ Htail) as (lines & Hout & _).
  destruct (replay_calls _ _ _ _ _ _ _ _ _ Htail) as (evs' & Hcalls & _).
  split_and!.
  - change (files (after st0 png o evs)) with (put (webp_of png) (written o) entries).
    destruct (put (webp_of png) (written o) entries !! webp_of png) as [y|] eqn:Hy.
    + eapply replay_frame; [exact Htail|].
      unfold after; simpl. fold (webp_of png). rewrite <- Hy.
      destruct (written o) as [d|]; simpl; [by rewrite !lookup_insert_eq|]. done.
    + assert (files (after st1 png o evs) !! webp_of png = None) as Hnone.
      { unfold after; simpl. fold (webp_of png). rewrite <- Hy.
        destruct (written o) as [d|]; simpl; [by rewrite !lookup_insert_eq|]. done. }
      destruct (files st !! webp_of png) as [z|] eqn:Hz; [|done].
      destruct (replay_new _ _ _ _ _ _ _ _ _ _ Htail Hnone (ex_intro _ z Hz)) as (p & Hp & Heq).
      assert (p = png) as ->.
      { apply Huniq; [apply elem_of_app; right; by right|done]. }
      done.
  - intros m Hm. unfold after in Hm. simpl in Hm. apply list_elem_of_singleton in Hm as ->.
    apply elem_of_app. left. rewrite Hout. apply elem_of_app. left.
    unfold after. simpl. apply elem_of_app. right. left.
  - intros ev Hev. unfold after in Hev. simpl in Hev.
    rewrite Hcalls. apply elem_of_app. left. unfold after. simpl.
    apply elem_of_app. by right.
Qed.

End RunFacts.

(** ** The options and the command line *)

Section Options.

Context (PIL : ImageCodec) (OS : Platform).

Lemma convert_image_lossless_blind q l l' png webp st :
  keeps_alpha PIL (files st !! png) = false →
  convert_image PIL q l png webp st = convert_image PIL q l' png webp st.
Proof.
  unfold keeps_alpha. intros H. run_monad.
  destruct (files st !! png) as [[data|]|]; simpl in *; try done.
  destruct (Image_open PIL data) as [e|img]; simpl in *; [done|].
  destruct (String.eqb (mode PIL img) "RGBA"); simpl in *; [|done].
  destruct (getextrema PIL img) as [e|extrema]; simpl in *; [done|].
  destruct (extrema !! 3%nat) as [alpha|]; simpl in *; [|done].
  by rewrite H.
Qed.

Lemma convert_image_quality_blind q q' png webp st :
  keeps_alpha PIL (files st !! png) = true →
  convert_image PIL q true png webp st = convert_image PIL q' true png webp st.
Proof.
  unfold keeps_alpha. intros H. run_monad.
  destruct (files st !! png) as [[data|]|]; simpl in *; try done.
  destruct (Image_open PIL data) as [e|img]; simpl in *; [done|].
  destruct (String.eqb (mode PIL img) "RGBA"); simpl in *; [|done].
  destruct (getextrema PIL img) as [e|extrema]; simpl in *; [done|].
  destruct (extrema !! 3%nat) as [alpha|]; simpl in *; [|done].
  by rewrite H.
Qed.

(** One iteration, in terms of the attempt it makes. *)
Lemma process_file_unfold q l png c st :
  process_file PIL OS q l png c st
  = let st1 := called st [FileExists (webp_of png)] in
    match files st !! webp_of png with
    | Some _ => (printed st1 [MsgSkipping png (webp_of png)], inr (bump_skipped c))
    | None =>
        match stat_error OS (webp_of png) with
        | Some e => (st1, inl e)
        | None =>
            match convert_image PIL q l png (webp_of png) st1 with
            | (st2, inr _) =>
                (printed st2 [MsgConverted png (webp_of png)], inr (bump_converted c))
            | (st2, inl e) =>
                (printed st2 [MsgErrorConverting png (str e)], inr (bump_error c))
            end
        end
    end.
Proof.
  unfold process_file, exists_. fold (webp_of png).
  unfold bind at 1 2. unfold log at 1. simpl.
  destruct (files st !! webp_of png); [done|].
  destruct (stat_error OS (webp_of png)); [done|].
  unfold try_except, bind at 1, called. simpl.
  by destruct (convert_image PIL q l png (webp_of png) _) as [st2 [e|[]]].
Qed.

(** However an iteration ends, it keeps what the directory holds. *)
Lemma process_file_keeps q l png c st st1 r k x :
  process_file PIL OS q l png c st = (st1, r) →
  files st !! k = Some x → files st1 !! k = Some x.
Proof.
  intros Hrun Hk.
  destruct (process_file_iteration PIL OS q l png st) as [(o & evs & Hit)|(e & Hw & He)].
  - pose proof Hit as (Hrun' & _). rewrite Hrun' in Hrun. injection Hrun as <- _.
    by eapply iteration_keeps.
  - rewrite (process_file_raises PIL OS q l png c st e Hw He) in Hrun.
    by injection Hrun as <- _.
Qed.

(** Two settings of the options under which every attempt on the files
    of the list behaves the same give the same loop. *)
Lemma convert_loop_ext (P : option dirent → Prop) q l q' l' pngs :
  (∀ p st, P (files st !! p) →
     convert_image PIL q l p (webp_of p) st = convert_image PIL q' l' p (webp_of p) st) →
  ∀ c st,
    (∀ p, p ∈ pngs → is_Some (files st !! p) ∧ P (files st !! p)) →
    convert_loop PIL OS q l pngs c st = convert_loop PIL OS q' l' pngs c st.
Proof.
  intros Hsame. induction pngs as [|png rest IH]; intros c st Hall; [done|].
  assert (process_file PIL OS q l png c st = process_file PIL OS q' l' png c st) as Hstep.
  { rewrite !process_file_unfold. cbn zeta.
    rewrite Hsame; [done|]. simpl. apply Hall. left. }
  simpl. unfold bind. rewrite <- Hstep.
  destruct (process_file PIL OS q l png c st) as [st1 [e|c1]] eqn:Hrun; [done|].
  apply IH.
  intros p Hp. destruct (Hall p (list_elem_of_further _ _ _ Hp)) as [[x Hx] HP].
  rewrite (process_file_keeps _ _ _ _ _ _ _ _ _ Hrun Hx). rewrite Hx in HP. eauto.
Qed.

Lemma convert_png_to_webp_ext (P : option dirent → Prop) q l q' l' dir fs :
  (∀ p st, P (files st !! p) →
     convert_image PIL q l p (webp_of p) st = convert_image PIL q' l' p (webp_of p) st) →
  (∀ entries p, fs !! dir = Some (DirObj entries) → p ∈ glob_star entries ".png" →
     P (entries !! p)) →
  convert_png_to_webp PIL OS dir q l fs = convert_png_to_webp PIL OS dir q' l' fs.
Proof.
  intros Hsame Hall.
  destruct (fs !! dir) as [[data|entries]|] eqn:Hdir;
    [unfold convert_png_to_webp; by rewrite Hdir| |unfold convert_png_to_webp; by rewrite Hdir].
  destruct (decide (glob_star entries ".png" = [])) as [Hglob|Hglob].
  { unfold convert_png_to_webp. by rewrite Hdir, Hglob. }
  rewrite !(convert_png_to_webp_unfold PIL OS dir _ _ fs entries Hdir Hglob).
  rewrite (convert_loop_ext P q l q' l' _ Hsame); [done|].
  intros p Hp. split; [|by eapply Hall].
  simpl. by apply elem_of_glob in Hp as [_ ?].
Qed.

(** X9. [lossless] matters only for translucent RGBA pictures: when no
    PNG file of the directory is one, a call with [lossless] set does,
    prints and writes exactly what the call without it does; and so does
    one iteration on any file that is not one. *)
Theorem lossless_needs_translucent_rgba dir q fs :
  (∀ entries png, fs !! dir = Some (DirObj entries) → png ∈ glob_star entries ".png" →
     keeps_alpha PIL (entries !! png) = false) →
  convert_png_to_webp PIL OS dir q true fs = convert_png_to_webp PIL OS dir q false fs ∧
  (∀ png c st, keeps_alpha PIL (files st !! png) = false →
     process_file PIL OS q true png c st = process_file PIL OS q false png c st).
Proof.
  intros Hall. split.
  - apply (convert_png_to_webp_ext (λ ent, keeps_alpha PIL ent = false)); [|done].
    intros p st Hp. by apply convert_image_lossless_blind.
  - intros png c st Hk. rewrite !process_file_unfold. cbn zeta.
    by rewrite (convert_image_lossless_blind q true false).
Qed.

(** X10. With [lossless] set, [quality] matters only for the pictures
    that are not translucent RGBA: when every PNG file of the directory
    is one, the call does the same for every [quality]; and so does one
    iteration on any file that is one. *)
Theorem quality_unused_when_lossless dir q q' fs :
  (∀ entries png, fs !! dir = Some (DirObj entries) → png ∈ glob_star entries ".png" →
     keeps_alpha PIL (entries !! png) = true) →
  convert_png_to_webp PIL OS dir q true fs = convert_png_to_webp PIL OS dir q' true fs ∧
  (∀ png c st, keeps_alpha PIL (files st !! png) = true →
     process_file PIL OS q true png c st = process_file PIL OS q' true png c st).
Proof.
  intros Hall. split.
  - apply (convert_png_to_webp_ext (λ ent, keeps_alpha PIL ent = true)); [|done].
    intros p st Hp. by apply convert_image_quality_blind.
  - intros png c st Hk. rewrite !process_file_unfold. cbn zeta.
    by rewrite (convert_image_quality_blind q q').
Qed.

(** X11. [main] checks [quality] before anything else. Outside 0..100 it
    prints the one error line, makes no call and leaves the file system
    as it is. Inside, bounds included, it prints its five header lines,
    with [Lossless] in place of the number when [lossless] is set, and
    then does, prints and writes exactly what the converter does; an
    exception that leaves the converter leaves [main], and it can only
    be the error of an existence test. *)
Theorem main_validates_quality a fs :
  let r := convert_png_to_webp PIL OS (directory a) (quality a) (lossless a) fs in
  (quality a < 0 ∨ 100 < quality a →
     main PIL OS a fs
     = {| main_fs := fs; main_calls := []; main_stdout := [LineQualityError];
          main_uncaught := None |}) ∧
  (0 ≤ quality a ≤ 100 →
     main_fs (main PIL OS a fs) = run_fs r ∧
     main_calls (main PIL OS a fs) = run_calls r ∧
     main_uncaught (main PIL OS a fs) = run_uncaught r ∧
     ∃ shown,
       main_stdout (main PIL OS a fs)
         = ([LineTitle; LineRule; LineDirectory (directory a); LineQuality shown; LineRule]
            ++ (LineConverter <$> run_stdout r))%list ∧
       (lossless a = true → shown = inl "Lossless") ∧
       (lossless a = false → shown = inr (quality a))) ∧
  (main_calls (main PIL OS a fs) ≠ [] → 0 ≤ quality a ≤ 100) ∧
  (main_fs (main PIL OS a fs) ≠ fs → 0 ≤ quality a ≤ 100) ∧
  (∀ e, main_uncaught (main PIL OS a fs) = Some e →
     0 ≤ quality a ≤ 100 ∧
     (stat_dir_error OS (directory a) = Some e ∨ ∃ name, stat_error OS name = Some e)).
Proof.
  intros r. subst r. unfold main.
  destruct ((0 <=? quality a) && (quality a <=? 100)) eqn:Hq; simpl.
  - apply andb_true_iff in Hq as [H0%Z.leb_le H100%Z.leb_le].
    split_and!; try done; try lia.
    + intros _. split_and!; try done.
      eexists. split; [reflexivity|]. by destruct (lossless a).
    + intros e He. split; [lia|].
      destruct (uncaught_is_stat_error PIL OS _ _ _ _ _ He)
        as [[_ ?]|(entries & p & _ & _ & ?)]; [by left|right; eauto].
  - apply andb_false_iff in Hq as [H0%Z.leb_gt|H100%Z.leb_gt];
      split_and!; try done; lia.
Qed.

End Options.

(** ** The further properties on examples *)

Lemma counterpart_keeps_stem_witness :
  "25-gmax.v2" ≠ "" ∧ webp_of ("25-gmax.v2" +:+ ".png") = "25-gmax.v2" +:+ ".webp".
Proof. split; [discriminate|]. apply counterpart_keeps_stem. discriminate. Defined.

Lemma counterpart_collisions_witness :
  webp_of ".png" = webp_of ".png.png" ∧
  (".png" = ".png.png" ∨ (".png" = ".png" ∧ ".png.png" = ".png.png")
   ∨ (".png" = ".png.png" ∧ ".png.png" = ".png")).
Proof.
  split; [reflexivity|].
  apply counterpart_collisions; [vm_compute; exact I|vm_compute; exact I|reflexivity].
Defined.

Lemma glob_artwork : glob_star Toy.artwork ".png" = ["c.png"; "a.png"; "b.png"].
Proof. vm_compute. reflexivity. Qed.

Lemma same_png_files_after_call_witness :
  ∃ entries',
    run_fs (Toy.go (Toy.disk Toy.artwork)) !! "./official-artwork" = Some (DirObj entries') ∧
    List.length (glob_star entries' ".png") = List.length (glob_star Toy.artwork ".png").
Proof.
  eexists. split; [vm_compute; reflexivity|].
  eapply (same_png_files_after_call Toy.codec Toy.os 85 false "./official-artwork"
            (Toy.disk Toy.artwork)); [reflexivity|vm_compute; reflexivity].
Defined.

Lemma summary_counts_the_lines_witness :
  let s := {| total_found := 2; converted := 1; skipped := 0; errors := 1 |} in
  let out := run_stdout (Toy.go (Toy.disk Toy.with_broken)) in
  printed_summary out = Some s ∧
  converted s = count_lines is_converted_line out ∧
  skipped s = count_lines is_skipping_line out ∧
  errors s = count_lines is_error_line out.
Proof.
  split; [vm_compute; reflexivity|].
  apply (summary_counts_the_lines Toy.codec Toy.os 85 false "./official-artwork"
           (Toy.disk Toy.with_broken)).
  vm_compute. reflexivity.
Defined.

Lemma every_png_is_settled_witness :
  Toy.disk Toy.with_broken !! "./official-artwork" = Some (DirObj Toy.with_broken) ∧
  ∃ entries',
    run_fs (Toy.go (Toy.disk Toy.with_broken)) !! "./official-artwork"
      = Some (DirObj entries') ∧
    (∀ png, png ∈ glob_star Toy.with_broken ".png" →
       is_Some (entries' !! webp_of png) ∨
       ∃ reason, MsgErrorConverting png reason
                   ∈ run_stdout (Toy.go (Toy.disk Toy.with_broken))).
Proof.
  split; [reflexivity|].
  destruct (every_png_is_settled Toy.codec Toy.os 85 false "./official-artwork"
              (Toy.disk Toy.with_broken) Toy.with_broken eq_refl)
    as (entries' & Hdir & Hall & _).
  exists entries'. split; [exact Hdir|]. apply Hall. vm_compute. reflexivity.
Defined.

Lemma directory_growth_witness :
  ∃ entries',
    run_fs (Toy.go (Toy.disk Toy.with_broken)) !! "./official-artwork"
      = Some (DirObj entries') ∧
    (size Toy.with_broken + 1 ≤ size entries')%nat ∧
    (size entries' ≤ size Toy.with_broken + 1 + 1)%nat.
Proof.
  apply (directory_growth Toy.codec Toy.os 85 false "./official-artwork"
           (Toy.disk Toy.with_broken) Toy.with_broken
           {| total_found := 2; converted := 1; skipped := 0; errors := 1 |});
    [reflexivity|vm_compute; reflexivity].
Defined.

Lemma no_rollback_witness :
  ∃ c' st',
    convert_loop Toy.codec Toy.os 85 false (["a.png"] ++ ["bad.png"]) zero (Toy.fresh Toy.mixed)
      = (st', inr c') ∧
    files st' !! "a.webp" = Some (File [Byte.x57; Byte.x51; Byte.x02; Byte.xff]).
Proof.
  eexists _, _. split; [vm_compute; reflexivity|].
  eapply (no_rollback Toy.codec Toy.os 85 false ["a.png"] ["bad.png"] zero
            (Toy.fresh Toy.mixed));
    [vm_compute; reflexivity|vm_compute; reflexivity|vm_compute; reflexivity].
Defined.

Lemma file_outcome_is_independent_witness :
  "b.png" ∈ glob_star Toy.artwork ".png" ∧
  ∃ entries',
    run_fs (Toy.go (Toy.disk Toy.artwork)) !! "./official-artwork" = Some (DirObj entries') ∧
    entries' !! webp_of "b.png"
    = files (process_file Toy.codec Toy.os 85 false "b.png" zero (Toy.fresh Toy.artwork)).1
        !! webp_of "b.png".
Proof.
  assert ("b.png" ∈ glob_star Toy.artwork ".png") as Hin.
  { rewrite glob_artwork. right. right. left. }
  split; [exact Hin|].
  destruct (file_outcome_is_independent Toy.codec Toy.os 85 false "./official-artwork"
              (Toy.disk Toy.artwork) Toy.artwork "b.png" eq_refl Hin)
    as (entries' & Hdir & Hsame & _).
  - intros p Hp Heq. rewrite glob_artwork in Hp.
    repeat (apply elem_of_cons in Hp as [->|Hp]);
      [vm_compute in Heq; discriminate Heq|vm_compute in Heq; discriminate Heq|reflexivity|].
    by apply elem_of_nil in Hp.
  - vm_compute. reflexivity.
  - exists entries'. split; [exact Hdir|exact Hsame].
Defined.

Lemma glob_opaque_only : glob_star Toy.opaque_only ".png" = ["c.png"; "a.png"].
Proof. vm_compute. reflexivity. Qed.

Lemma lossless_needs_translucent_rgba_witness :
  convert_png_to_webp Toy.codec Toy.os "./official-artwork" 85 true (Toy.disk Toy.opaque_only)
  = convert_png_to_webp Toy.codec Toy.os "./official-artwork" 85 false (Toy.disk Toy.opaque_only).
Proof.
  apply (lossless_needs_translucent_rgba Toy.codec Toy.os "./official-artwork" 85
           (Toy.disk Toy.opaque_only)).
  intros entries png Hdir Hin.
  assert (Toy.disk Toy.opaque_only !! "./official-artwork" = Some (DirObj Toy.opaque_only))
    as Hd by reflexivity.
  rewrite Hd in Hdir. injection Hdir as <-.
  rewrite glob_opaque_only in Hin.
  repeat (apply elem_of_cons in Hin as [->|Hin]); [reflexivity|reflexivity|].
  by apply elem_of_nil in Hin.
Defined.

Lemma glob_translucent_only : glob_star Toy.translucent_only ".png" = ["b.png"].
Proof. vm_compute. reflexivity. Qed.

Lemma quality_unused_when_lossless_witness :
  convert_png_to_webp Toy.codec Toy.os "./official-artwork" 85 true (Toy.disk Toy.translucent_only)
  = convert_png_to_webp Toy.codec Toy.os "./official-artwork" 10 true (Toy.disk Toy.translucent_only).
Proof.
  apply (quality_unused_when_lossless Toy.codec Toy.os "./official-artwork" 85 10
           (Toy.disk Toy.translucent_only)).
  intros entries png Hdir Hin.
  assert (Toy.disk Toy.translucent_only !! "./official-artwork"
          = Some (DirObj Toy.translucent_only)) as Hd by reflexivity.
  rewrite Hd in Hdir. injection Hdir as <-.
  rewrite glob_translucent_only in Hin.
  repeat (apply elem_of_cons in Hin as [->|Hin]); [reflexivity|].
  by apply elem_of_nil in Hin.
Defined.

Lemma main_validates_quality_witness :
  main_calls (main Toy.codec Toy.os {| directory := "./official-artwork"; quality := 101;
                                lossless := false |} (Toy.disk Toy.artwork)) = [] ∧
  main_fs (main Toy.codec Toy.os default_args (Toy.disk Toy.artwork))
  = run_fs (Toy.go (Toy.disk Toy.artwork)).
Proof.
  split.
  - destruct (main_validates_quality Toy.codec Toy.os
                {| directory := "./official-artwork"; quality := 101; lossless := false |}
                (Toy.disk Toy.artwork)) as (Hbad & _).
    rewrite Hbad; [reflexivity|]. right. simpl. lia.
  - destruct (main_validates_quality Toy.codec Toy.os default_args (Toy.disk Toy.artwork))
      as (_ & Hgood & _).
    destruct Hgood as (Hfs & _); [simpl; lia|]. exact Hfs.
Defined.
